(** * trace-docs: the setup script, the layout options and the home page

    The repository holds three pieces of logic:

    - [scripts/setup.sh], a bash script run under [set -e] (the script is
      lines 1 to 45 of the file);
    - [lib/layout.shared.tsx], whose [baseOptions] builds the navigation
      configuration of the site;
    - [app/(home)/page.tsx], whose [HomePage] builds the landing page.

    The script is embedded as a computation in a small shell monad: a
    state monad over the machine the script runs on, with early
    termination. The two TSX functions are embedded as calls on the store
    of the JavaScript process, over a datatype of JSX elements. The
    components the home page imports are no part of the repository: they
    are a parameter of the rendering, a library of markup functions, with
    or without state of their own. *)

From stdpp Require Import base decidable option list strings gmap.
From Stdlib Require Import ZArith Ascii String.

Local Open Scope string_scope.
Local Open Scope list_scope.
Local Open Scope Z_scope.

(* ===================================================================== *)
(** * Part I: a model of the shell                                         *)
(* ===================================================================== *)

Module Shell.

(** ** The machine the script runs on *)

Inductive file_kind := RegularFile | Directory.

(** What the script can observe of a path: its kind, whether it is
    executable, and whether the invoking user may change its mode. *)
Record inode := {
  kind : file_kind;
  executable : bool;
  may_chmod : bool;
}.

(** The file system is keyed by the path as the script writes it
    (relative to the working directory). [PATH] is the set of programs
    that command lookup finds. [program_status] is the exit status of an
    external program other than [chmod] (here: the package managers), as
    the shell sees it. Such a program acts on the machine only through
    that status: what a package manager writes is not among the paths the
    script looks at. Each path names a file of its own: hard and symbolic
    links are not modelled. *)
Record World := {
  fs : gmap string inode;
  PATH : gset string;
  program_status : string → list string → Z;
}.

(** ** Commands *)

Inductive test_op := IsFile | IsDir.          (* -f, -d *)

Inductive command :=
| SetE                                         (* set -e *)
| Echo (line : string)                         (* echo "line" *)
| TestNot (op : test_op) (path : string)       (* [ ! -f "path" ] *)
| CommandV (name : string)                     (* command -v name &> /dev/null *)
| External (prog : string) (args : list string)
| Exit (n : Z).                                (* exit n *)

(** One executed command: what ran, its exit status, and whether it ran as
    the condition of an [if] (where [set -e] does not apply). *)
Record event := {
  ev_cmd : command;
  ev_status : Z;
  ev_condition : bool;
}.

Definition test_holds (op : test_op) (path : string) (w : World) : bool :=
  match fs w !! path, op with
  | Some i, IsFile => match kind i with RegularFile => true | Directory => false end
  | Some i, IsDir => match kind i with Directory => true | RegularFile => false end
  | None, _ => false
  end.

(** [chmod +x path]: fails with status 1 when the path does not exist or
    its mode may not be changed; otherwise sets the executable bit. *)
Definition chmod_x (path : string) (w : World) : Z * World :=
  match fs w !! path with
  | Some i =>
      if may_chmod i
      then (0, {| fs := <[path := {| kind := kind i; executable := true;
                                      may_chmod := may_chmod i |}]> (fs w);
                  PATH := PATH w;
                  program_status := program_status w |})
      else (1, w)
  | None => (1, w)
  end.

Definition run_program (prog : string) (args : list string) (w : World)
  : Z * World :=
  match prog, args with
  | "chmod", ["+x"; path] => chmod_x path w
  | _, _ => (program_status w prog args, w)
  end.

(** Exit status and effect on the machine of one command. A program that
    command lookup does not find gives status 127. [echo] writes to a
    standard output that is assumed writable, so it gives status 0. *)
Definition run_command (c : command) (w : World) : Z * World :=
  match c with
  | SetE => (0, w)
  | Echo _ => (0, w)
  | TestNot op path => (if test_holds op path w then 1 else 0, w)
  | CommandV name => (if decide (name ∈ PATH w) then 0 else 1, w)
  | External prog args =>
      if decide (prog ∈ PATH w) then run_program prog args w else (127, w)
  | Exit n => (n, w)
  end.

(** ** The shell monad *)

Record State := {
  world : World;
  errexit : bool;            (* has [set -e] been run? *)
  last_status : Z;           (* $? *)
  trace : list event;        (* executed commands, oldest first *)
}.

Inductive flow (A : Type) :=
| Continue (a : A)
| Terminated (status : Z).
Arguments Continue {A} a.
Arguments Terminated {A} status.

Definition Sh (A : Type) : Type := State → flow A * State.

Global Instance Sh_ret : MRet Sh := λ A a st, (Continue a, st).

Global Instance Sh_bind : MBind Sh := λ A B k m st,
  match m st with
  | (Continue a, st') => k a st'
  | (Terminated n, st') => (Terminated n, st')
  end.

(** The state after [c] has run with status [n], leaving the machine as
    [w]: [set -e] turns the option on, the status becomes [$?], and the
    command joins the trace. *)
Definition after (st : State) (condition : bool) (c : command) (n : Z)
    (w : World) : State :=
  {| world := w;
     errexit := (match c with SetE => true | _ => errexit st end);
     last_status := n;
     trace := trace st ++ [{| ev_cmd := c; ev_status := n;
                              ev_condition := condition |}] |}.

(** Runs [c], records it, and gives back its status. *)
Definition step (condition : bool) (c : command) : Sh Z := λ st,
  let '(n, w) := run_command c (world st) in
  (Continue n, after st condition c n w).

(** A command in statement position: under [set -e] a non-zero status
    ends the script with that status. *)
Definition simple (c : command) : Sh unit := λ st,
  match step false c st with
  | (Continue n, st') =>
      if errexit st' && negb (n =? 0) then (Terminated n, st')
      else (Continue tt, st')
  | (Terminated n, st') => (Terminated n, st')
  end.

(** A command as the condition of [if]: never ends the script. *)
Definition condition (c : command) : Sh bool :=
  n ← step true c; mret (n =? 0).

Definition set_e : Sh unit := simple SetE.
Definition echo (line : string) : Sh unit := simple (Echo line).
Definition external (prog : string) (args : list string) : Sh unit :=
  simple (External prog args).

Definition exit {A} (n : Z) : Sh A := λ st,
  match step false (Exit n) st with
  | (_, st') => (Terminated n, st')
  end.

(** [if c; then t; else e; fi]. Without an [else] branch, [e] is [fi],
    which leaves status 0. *)
Definition if_then_else (c : command) (t e : Sh unit) : Sh unit :=
  condition c ≫= λ b : bool, if b then t else e.

Definition fi : Sh unit := λ st,
  (Continue tt,
   {| world := world st; errexit := errexit st; last_status := 0;
      trace := trace st |}).

(** ** Running a script *)

Record Run := {
  exit_status : Z;
  events : list event;
  final : World;
}.

Definition initial (w : World) : State :=
  {| world := w; errexit := false; last_status := 0; trace := [] |}.

(** A script that runs off its end exits with the status of its last
    command. *)
Definition run (script : Sh unit) (w : World) : Run :=
  match script (initial w) with
  | (Continue _, st) =>
      {| exit_status := last_status st; events := trace st; final := world st |}
  | (Terminated n, st) =>
      {| exit_status := n; events := trace st; final := world st |}
  end.

(** ** Observations on a run *)

Definition commands (r : Run) : list command := ev_cmd <$> events r.

(** The lines the script itself wrote with [echo]. *)
Definition echoed (r : Run) : list string :=
  omap (λ c, match c with Echo l => Some l | _ => None end) (commands r).

(** The external commands the script invoked, with their arguments,
    whether or not the program was found: one that was not found is in
    the trace too, with status 127. *)
Definition started (r : Run) : list (string * list string) :=
  omap (λ c, match c with External p a => Some (p, a) | _ => None end)
       (commands r).

(** The package managers invoked with the single argument [install]. *)
Definition installs (r : Run) : list string :=
  fst <$> filter (λ pa, pa.2 = ["install"]) (started r).

(** Events of a command in statement position and of a condition. *)
Definition stmt (c : command) (n : Z) : event :=
  {| ev_cmd := c; ev_status := n; ev_condition := false |}.
Definition cond (c : command) (n : Z) : event :=
  {| ev_cmd := c; ev_status := n; ev_condition := true |}.

(** A run in which every command in statement position gave status 0. *)
Definition all_succeed (r : Run) : Prop :=
  ∀ e, e ∈ events r → ev_condition e = false → ev_status e = 0.

(** Trace [t] of a run that ended with [status] stops at the first command
    in statement position that gave a non-zero status. *)
Definition stops_at_failure (t : list event) (status : Z) : Prop :=
  ∀ pre e post,
    t = pre ++ e :: post → ev_condition e = false → ev_status e ≠ 0 →
    post = [] ∧ status = ev_status e.

(** The same without the exemption of conditions: [t] stops at the first
    command, of any kind, that gave a non-zero status. *)
Definition stops_at_first_nonzero (t : list event) (status : Z) : Prop :=
  ∀ pre e post,
    t = pre ++ e :: post → Forall (λ e', ev_status e' = 0) pre →
    ev_status e ≠ 0 →
    post = [] ∧ status ≠ 0.

End Shell.

(* ===================================================================== *)
(** * Part II: scripts/setup.sh                                            *)
(* ===================================================================== *)

Module Setup.
Import Shell.

Notation "'If' c 'Then' t 'Else' e 'Fi'" := (if_then_else c t e)
  (at level 0, c at level 9, t at level 200, e at level 200, only parsing).
Notation "'If' c 'Then' t 'Fi'" := (if_then_else c t fi)
  (at level 0, c at level 9, t at level 200, only parsing).

Definition package_json := "package.json".
Definition trace_repo := "../Trace".
Definition generate_api_docs := "scripts/generate_api_docs.py".
Definition convert_notebooks := "scripts/convert_notebooks.py".

Definition msg_banner := "🚀 Setting up Trace Documentation Site...".
Definition msg_error :=
  "❌ Error: Please run this script from the trace-docs directory".
Definition msg_warning := "⚠️  Warning: Trace repository not found at ../Trace".
Definition msg_warning_2 := "   Automation scripts may not work without it.".
Definition msg_installing := "📦 Installing Node.js dependencies...".
Definition msg_chmod := "🔧 Making Python scripts executable...".
Definition msg_complete := "✨ Setup complete!".

(** The script, line by line. *)
Definition setup_sh : Sh unit :=
  set_e;;

  echo msg_banner;;
  echo "";;

  (* Check if we're in the right directory *)
  (If (TestNot IsFile package_json) Then
     echo msg_error;;
     exit 1
   Fi);;

  (* Check if Trace repo exists *)
  (If (TestNot IsDir trace_repo) Then
     echo msg_warning;;
     echo msg_warning_2;;
     echo ""
   Fi);;

  (* Install Node dependencies *)
  echo msg_installing;;
  (If (CommandV "yarn") Then
     external "yarn" ["install"]
   Else
     external "npm" ["install"]
   Fi);;

  (* Make Python scripts executable *)
  echo msg_chmod;;
  external "chmod" ["+x"; generate_api_docs];;
  external "chmod" ["+x"; convert_notebooks];;

  echo "";;
  echo msg_complete;;
  echo "";;
  echo "📋 Available commands:";;
  echo "   npm run dev                    - Start development server";;
  echo "   npm run build                  - Build for production";;
  echo "   npm run docs:generate-api      - Generate API documentation";;
  echo "   npm run docs:convert-notebooks - Convert Jupyter notebooks";;
  echo "   npm run docs:generate-all      - Run all generators";;
  echo "";;
  echo "🎉 Ready to go! Run 'npm run dev' to start.".

Definition setup (w : World) : Run := run setup_sh w.

(** *** What a run is made of *)

(** The package manager the script picks. *)
Definition package_manager (w : World) : string :=
  if decide ("yarn" ∈ PATH w) then "yarn" else "npm".

Definition install (w : World) : command :=
  External (package_manager w) ["install"].
Definition chmod_generate : command :=
  External "chmod" ["+x"; generate_api_docs].
Definition chmod_convert : command :=
  External "chmod" ["+x"; convert_notebooks].

Definition opening : list event :=
  [stmt SetE 0; stmt (Echo msg_banner) 0; stmt (Echo "") 0].

Definition trace_check (w : World) : list event :=
  if test_holds IsDir trace_repo w
  then [cond (TestNot IsDir trace_repo) 1]
  else [cond (TestNot IsDir trace_repo) 0;
        stmt (Echo msg_warning) 0; stmt (Echo msg_warning_2) 0;
        stmt (Echo "") 0].

Definition closing : list event :=
  [stmt (Echo "") 0; stmt (Echo msg_complete) 0; stmt (Echo "") 0;
   stmt (Echo "📋 Available commands:") 0;
   stmt (Echo "   npm run dev                    - Start development server") 0;
   stmt (Echo "   npm run build                  - Build for production") 0;
   stmt (Echo "   npm run docs:generate-api      - Generate API documentation") 0;
   stmt (Echo "   npm run docs:convert-notebooks - Convert Jupyter notebooks") 0;
   stmt (Echo "   npm run docs:generate-all      - Run all generators") 0;
   stmt (Echo "") 0;
   stmt (Echo "🎉 Ready to go! Run 'npm run dev' to start.") 0].

(** Everything up to and including the installation command. *)
Definition until_install (w : World) (n : Z) : list event :=
  opening ++ [cond (TestNot IsFile package_json) 1] ++ trace_check w
    ++ [stmt (Echo msg_installing) 0;
        cond (CommandV "yarn") (if decide ("yarn" ∈ PATH w) then 0 else 1);
        stmt (install w) n].

(** Two machines that differ at most in what is at [../Trace]. *)
Definition same_but_trace_repo (w w' : World) : Prop :=
  PATH w = PATH w'
  ∧ program_status w = program_status w'
  ∧ ∀ p, p ≠ trace_repo → fs w !! p = fs w' !! p.

(** *** Sample machines *)

Definition every_program : gset string := {[ "yarn"; "npm"; "chmod" ]}.

Definition plain_file : inode :=
  {| kind := RegularFile; executable := false; may_chmod := true |}.
Definition directory : inode :=
  {| kind := Directory; executable := true; may_chmod := true |}.

(** A checkout of the site with its helper scripts, next to a checkout of
    Trace, where every program succeeds. *)
Definition checkout (path : gset string) : World :=
  {| fs := {[ package_json := plain_file;
              trace_repo := directory;
              generate_api_docs := plain_file;
              convert_notebooks := plain_file ]};
     PATH := path;
     program_status := λ _ _, 0 |}.

(** The same without the checkout of Trace. *)
Definition lone_checkout (path : gset string) : World :=
  {| fs := delete trace_repo (fs (checkout path));
     PATH := path;
     program_status := λ _ _, 0 |}.

(** A checkout that lacks the helper scripts. *)
Definition bare_checkout (path : gset string) : World :=
  {| fs := {[ package_json := plain_file; trace_repo := directory ]};
     PATH := path;
     program_status := λ _ _, 0 |}.

(** A directory that is not a checkout of the site. *)
Definition elsewhere : World :=
  {| fs := ∅; PATH := every_program; program_status := λ _ _, 0 |}.

End Setup.

(* ===================================================================== *)
(** * Part III: JSX elements and their markup                              *)
(* ===================================================================== *)

Module Jsx.

Definition props := list (string * string).

(** What a JSX expression evaluates to. An element whose tag is
    capitalised in the source refers to an imported component. The text of
    a JSX child is kept as JSX cleans it: lines trimmed and joined by one
    space. *)
#[local] Unset Elimination Schemes.
Inductive node :=
| Text (s : string)
| Element (tag : string) (attrs : props) (children : list node)
| Component (name : string) (attrs : props) (children : list node)
| Fragment (children : list node).
#[local] Set Elimination Schemes.

Definition className (v : string) : string * string := ("className", v).
Definition href (v : string) : string * string := ("href", v).
Definition target (v : string) : string * string := ("target", v).

Definition newline : string := String "010"%char "".

(** The lines of a template literal, joined by line feeds. *)
Fixpoint lines (ls : list string) : string :=
  match ls with
  | [] => ""
  | [l] => l
  | l :: ls => l +:+ newline +:+ lines ls
  end.

(** *** Static markup

    The markup of a tree as a server renderer writes it: text and
    attribute values escaped, an element as its start tag, the markup of
    its children and its end tag. None of the elements used is a void
    element. *)

Definition escape_char (c : ascii) : string :=
  match c with
  | "&"%char => "&amp;"
  | "<"%char => "&lt;"
  | ">"%char => "&gt;"
  | "034"%char => "&quot;"
  | "'"%char => "&#x27;"
  | _ => String c ""
  end.

Fixpoint escape (s : string) : string :=
  match s with
  | EmptyString => ""
  | String c s => escape_char c +:+ escape s
  end.

(** The attribute a JSX prop is written as. *)
Definition attr_name (prop : string) : string :=
  match prop with
  | "className" => "class"
  | "strokeWidth" => "stroke-width"
  | "strokeLinecap" => "stroke-linecap"
  | "strokeLinejoin" => "stroke-linejoin"
  | _ => prop
  end.

Definition quote : string := String "034"%char "".

Fixpoint render_attrs (attrs : props) : string :=
  match attrs with
  | [] => ""
  | (k, v) :: attrs =>
      " " +:+ attr_name k +:+ "=" +:+ quote +:+ escape v +:+ quote
        +:+ render_attrs attrs
  end.

Definition render_element (tag : string) (attrs : props) (inner : string)
  : string :=
  "<" +:+ tag +:+ render_attrs attrs +:+ ">" +:+ inner +:+ "</" +:+ tag +:+ ">".

(** An imported component is known only by the markup it produces from its
    props and the markup of its children; [None] stands for a component
    that throws. *)
Definition library := string → props → string → option string.

Section Render.
Variable lib : library.

Fixpoint render (n : node) : option string :=
  let fix render_all (ns : list node) : option string :=
    match ns with
    | [] => Some ""
    | n :: ns =>
        s ← render n; rest ← render_all ns; Some (s +:+ rest)
    end in
  match n with
  | Text s => Some (escape s)
  | Element tag attrs children =>
      inner ← render_all children; Some (render_element tag attrs inner)
  | Component name attrs children =>
      inner ← render_all children; lib name attrs inner
  | Fragment children => render_all children
  end.

Fixpoint render_all (ns : list node) : option string :=
  match ns with
  | [] => Some ""
  | n :: ns => s ← render n; rest ← render_all ns; Some (s +:+ rest)
  end.

End Render.

(** Whether [s] is the text of a text node of the tree. *)
Fixpoint has_text (s : string) (n : node) : bool :=
  let fix any (ns : list node) : bool :=
    match ns with
    | [] => false
    | n :: ns => has_text s n || any ns
    end in
  match n with
  | Text t => bool_decide (t = s)
  | Element _ _ children | Component _ _ children | Fragment children =>
      any children
  end.

(** [s] occurs in [out]. *)
Definition occurs_in (s out : string) : Prop :=
  ∃ before after, out = before +:+ s +:+ after.

(** Every imported component produces markup that contains the markup of
    its children (and so does not throw). *)
Definition wraps_children (lib : library) : Prop :=
  ∀ name attrs inner,
    ∃ before after, lib name attrs inner = Some (before +:+ inner +:+ after).

(** The markup of a tree exists and contains the text of its text nodes. *)
Definition renders (lib : library) (n : node) : Prop :=
  ∃ out, render lib n = Some out
         ∧ ∀ s, has_text s n = true → occurs_in (escape s) out.

(** A stand-in for the imported components: [Link] as an anchor, every
    other component (the icons) as an [svg] element. *)
Definition sample_library : library := λ name attrs inner,
  Some (render_element (if bool_decide (name = "Link") then "a" else "svg")
                       attrs inner).

End Jsx.

(* ===================================================================== *)
(** * Part IV: JavaScript calls                                            *)
(* ===================================================================== *)

Module Js.

(** The objects of the process that can be mutated, by reference, and a
    call as a function of that store: it returns or throws, and leaves a
    store. JSX elements are immutable and are values, not objects of the
    store. *)
Definition ref := positive.

Inductive completion (A : Type) :=
| Returned (a : A)
| Thrown.
Arguments Returned {A} a.
Arguments Thrown {A}.

Section Store.
Context {Obj : Type}.

Definition Call (A : Type) : Type := gmap ref Obj → completion A * gmap ref Obj.

Definition ret {A} (a : A) : Call A := λ σ, (Returned a, σ).

Definition bind {A B} (m : Call A) (k : A → Call B) : Call B := λ σ,
  match m σ with
  | (Returned a, σ') => k a σ'
  | (Thrown, σ') => (Thrown, σ')
  end.

(** Evaluating an object literal makes a new object. *)
Definition new (o : Obj) : Call ref := λ σ,
  let r := fresh (dom σ) in (Returned r, <[r := o]> σ).

End Store.
Arguments Call Obj A : clear implicits.

End Js.

(* ===================================================================== *)
(** * Part V: lib/layout.shared.tsx                                        *)
(* ===================================================================== *)

Module Layout.
Import Jsx.

(** The fields of [BaseLayoutProps] (a type of fumadocs-ui) that the
    function sets. An optional field that is not set is [None]. *)
Record LinkItem := {
  text : string;
  url : string;
  active : option string;
  external : option bool;
}.

Record NavOptions := { title : node }.

Record BaseLayoutProps := {
  nav : NavOptions;
  links : list LinkItem;
}.

Definition nav_title : node :=
  Fragment
    [Element "svg"
       [("width", "24");
        ("height", "24");
        ("viewBox", "0 0 24 24");
        ("xmlns", "http://www.w3.org/2000/svg");
        ("aria-label", "Trace Logo");
        ("fill", "none")]
       [Element "path"
          [("d", "M3 12 L9 6 L15 12 L21 6");
           ("stroke", "currentColor");
           ("strokeWidth", "2");
           ("strokeLinecap", "round");
           ("strokeLinejoin", "round")] [];
        Element "path"
          [("d", "M3 18 L9 12 L15 18 L21 12");
           ("stroke", "currentColor");
           ("strokeWidth", "2");
           ("strokeLinecap", "round");
           ("strokeLinejoin", "round");
           ("opacity", "0.5")] []];
     Element "span" [className "font-bold"] [Text "Trace2"]].

Definition base_options : BaseLayoutProps :=
  {| nav := {| title := nav_title |};
     (* see https://fumadocs.dev/docs/ui/navigation/links *)
     links :=
       [ {| text := "Documentation";
            url := "/docs";
            active := Some "nested-url";
            external := None |};
         {| text := "GitHub";
            url := "https://github.com/AgentOpt/OpenTrace";
            active := None;
            external := Some true |};
         {| text := "Paper";
            url := "https://arxiv.org/abs/2406.16218";
            active := None;
            external := Some true |} ] |}.

(** [baseOptions()] returns the object its literal evaluates to. *)
Definition baseOptions : Js.Call BaseLayoutProps Js.ref :=
  Js.new base_options.

End Layout.

(* ===================================================================== *)
(** * Part VI: app/(home)/page.tsx                                         *)
(* ===================================================================== *)

Module Home.
Import Jsx.

(* Hero Section *)
Definition hero : node :=
  Element "section"
    [className "flex flex-col items-center justify-center px-4 py-24 text-center bg-gradient-to-b from-fd-background to-fd-muted/20"]
    [Element "div"
       [className "mb-6 inline-flex items-center gap-2 rounded-full border border-fd-border bg-fd-muted/50 px-4 py-2 text-sm backdrop-blur"]
       [Component "Sparkles" [className "h-4 w-4 text-fd-primary"] [];
        Element "span" [] [Text "AutoDiff for AI Agents"]];
     Element "h1"
       [className "mb-6 max-w-4xl text-5xl font-extrabold tracking-tight sm:text-6xl md:text-7xl bg-gradient-to-r from-fd-foreground to-fd-muted-foreground bg-clip-text text-transparent"]
       [Text "End-to-end Optimization for AI Systems"];
     Element "p"
       [className "mb-10 max-w-2xl text-lg text-fd-muted-foreground sm:text-xl"]
       [Text "Train AI agents with general feedback like rewards, natural language, or compiler errors. Write Python code directly and optimize it like training neural networks."];
     Element "div" [className "flex flex-col gap-4 sm:flex-row"]
       [Component "Link"
          [href "/docs";
           className "group inline-flex items-center gap-2 rounded-lg bg-fd-primary px-6 py-3 text-fd-primary-foreground font-semibold shadow-lg hover:bg-fd-primary/90 transition-all"]
          [Text "Get Started";
           Component "ArrowRight"
             [className "h-4 w-4 transition-transform group-hover:translate-x-1"] []];
        Component "Link"
          [href "https://github.com/AgentOpt/Trace";
           target "_blank";
           className "inline-flex items-center gap-2 rounded-lg border border-fd-border bg-fd-background px-6 py-3 font-semibold hover:bg-fd-muted/50 transition-all"]
          [Component "Github" [className "h-4 w-4"] [];
           Text "View on GitHub"]];
     Element "div" [className "mt-16 grid grid-cols-2 gap-8 sm:grid-cols-4"]
       [Element "div" [className "flex flex-col items-center"]
          [Element "div" [className "text-3xl font-bold text-fd-primary"]
             [Text "3"];
           Element "div" [className "text-sm text-fd-muted-foreground"]
             [Text "Optimizers"]];
        Element "div" [className "flex flex-col items-center"]
          [Element "div" [className "text-3xl font-bold text-fd-primary"]
             [Text "PyTorch-like"];
           Element "div" [className "text-sm text-fd-muted-foreground"]
             [Text "API"]];
        Element "div" [className "flex flex-col items-center"]
          [Element "div" [className "text-3xl font-bold text-fd-primary"]
             [Text "NeurIPS"];
           Element "div" [className "text-sm text-fd-muted-foreground"]
             [Text "2024"]];
        Element "div" [className "flex flex-col items-center"]
          [Element "div" [className "text-3xl font-bold text-fd-primary"]
             [Text "Open"];
           Element "div" [className "text-sm text-fd-muted-foreground"]
             [Text "Source"]]]].

(* Code Preview Section *)
Definition code_preview : node :=
  Element "section"
    [className "border-t border-fd-border bg-fd-background px-4 py-20"]
    [Element "div" [className "mx-auto max-w-6xl"]
       [Element "div" [className "text-center mb-12"]
          [Element "h2" [className "text-3xl font-bold mb-4"]
             [Text "Familiar PyTorch-like Syntax"];
           Element "p" [className "text-fd-muted-foreground text-lg"]
             [Text "Define trainable parameters and optimize them with a simple, intuitive API"]];
        Element "div"
          [className "rounded-xl border border-fd-border bg-fd-card overflow-hidden shadow-2xl"]
          [Element "div"
             [className "bg-fd-muted/50 px-4 py-2 border-b border-fd-border flex items-center gap-2"]
             [Element "div" [className "flex gap-1.5"]
                [Element "div"
                   [className "h-3 w-3 rounded-full bg-red-500/80"] [];
                 Element "div"
                   [className "h-3 w-3 rounded-full bg-yellow-500/80"] [];
                 Element "div"
                   [className "h-3 w-3 rounded-full bg-green-500/80"] []];
              Element "span"
                [className "text-xs text-fd-muted-foreground ml-2"]
                [Text "quickstart.py"]];
           Element "pre"
             [className "p-6 overflow-x-auto text-sm leading-relaxed"]
             [Element "code" []
                [Text (lines
                   ["from opto.trace import node, bundle";
                    "from opto.optimizers import OptoPrime";
                    "";
                    "# Define trainable function";
                    "@bundle(trainable=True)";
                    "def strange_sort_list(lst):";
                    "    '''Sort list in strange order: min, max, min, max...'''";
                    "    return sorted(lst)";
                    "";
                    "# Optimize with feedback";
                    "optimizer = OptoPrime(strange_sort_list.parameters())";
                    "";
                    "for epoch in range(5):";
                    "    output = strange_sort_list([1, 2, 3, 4])";
                    "    feedback = check_correctness(output)";
                    "    ";
                    "    optimizer.zero_feedback()";
                    "    optimizer.backward(output, feedback)";
                    "    optimizer.step()  # LLM updates the function!"])]]]]].

(* Features Section *)
Definition features : node :=
  Element "section"
    [className "border-t border-fd-border bg-fd-muted/20 px-4 py-20"]
    [Element "div" [className "mx-auto max-w-6xl"]
       [Element "div" [className "text-center mb-16"]
          [Element "h2" [className "text-3xl font-bold mb-4"]
             [Text "Why Trace?"];
           Element "p" [className "text-fd-muted-foreground text-lg"]
             [Text "A new paradigm for training AI systems end-to-end"]];
        Element "div" [className "grid gap-8 md:grid-cols-2 lg:grid-cols-3"]
          [Element "div"
             [className "rounded-lg border border-fd-border bg-fd-card p-6 shadow-sm hover:shadow-lg transition-shadow"]
             [Element "div"
                [className "mb-4 inline-flex h-12 w-12 items-center justify-center rounded-lg bg-fd-primary/10"]
                [Component "GitBranch" [className "h-6 w-6 text-fd-primary"] []];
              Element "h3" [className "mb-2 text-xl font-semibold"]
                [Text "Computation Graph"];
              Element "p" [className "text-fd-muted-foreground"]
                [Text "Automatically traces execution to build a computation graph, just like autograd but for AI agents."]];
           Element "div"
             [className "rounded-lg border border-fd-border bg-fd-card p-6 shadow-sm hover:shadow-lg transition-shadow"]
             [Element "div"
                [className "mb-4 inline-flex h-12 w-12 items-center justify-center rounded-lg bg-fd-primary/10"]
                [Component "Code2" [className "h-6 w-6 text-fd-primary"] []];
              Element "h3" [className "mb-2 text-xl font-semibold"]
                [Text "Write Real Code"];
              Element "p" [className "text-fd-muted-foreground"]
                [Text "No need to wrap functions in strings. Write actual executable Python code with full IDE support."]];
           Element "div"
             [className "rounded-lg border border-fd-border bg-fd-card p-6 shadow-sm hover:shadow-lg transition-shadow"]
             [Element "div"
                [className "mb-4 inline-flex h-12 w-12 items-center justify-center rounded-lg bg-fd-primary/10"]
                [Component "Zap" [className "h-6 w-6 text-fd-primary"] []];
              Element "h3" [className "mb-2 text-xl font-semibold"]
                [Text "Multiple Optimizers"];
              Element "p" [className "text-fd-muted-foreground"]
                [Text "Choose from OptoPrime, OPRO, or TextGrad. Switch optimizers with a single line of code."]];
           Element "div"
             [className "rounded-lg border border-fd-border bg-fd-card p-6 shadow-sm hover:shadow-lg transition-shadow"]
             [Element "div"
                [className "mb-4 inline-flex h-12 w-12 items-center justify-center rounded-lg bg-fd-primary/10"]
                [Component "BookOpen" [className "h-6 w-6 text-fd-primary"] []];
              Element "h3" [className "mb-2 text-xl font-semibold"]
                [Text "Rich Feedback"];
              Element "p" [className "text-fd-muted-foreground"]
                [Text "Use any feedback: numerical rewards, natural language, compiler errors, or test results."]];
           Element "div"
             [className "rounded-lg border border-fd-border bg-fd-card p-6 shadow-sm hover:shadow-lg transition-shadow"]
             [Element "div"
                [className "mb-4 inline-flex h-12 w-12 items-center justify-center rounded-lg bg-fd-primary/10"]
                [Component "Sparkles" [className "h-6 w-6 text-fd-primary"] []];
              Element "h3" [className "mb-2 text-xl font-semibold"]
                [Text "LLM Backend Agnostic"];
              Element "p" [className "text-fd-muted-foreground"]
                [Text "Works with OpenAI, Anthropic, or any LiteLLM-supported provider. Easy API key management."]];
           Element "div"
             [className "rounded-lg border border-fd-border bg-fd-card p-6 shadow-sm hover:shadow-lg transition-shadow"]
             [Element "div"
                [className "mb-4 inline-flex h-12 w-12 items-center justify-center rounded-lg bg-fd-primary/10"]
                [Component "Github" [className "h-6 w-6 text-fd-primary"] []];
              Element "h3" [className "mb-2 text-xl font-semibold"]
                [Text "Research-Backed"];
              Element "p" [className "text-fd-muted-foreground"]
                [Text "Published at NeurIPS 2024. Battle-tested on NLP, robotics, and multi-agent tasks."]]]]].

(* CTA Section *)
Definition call_to_action : node :=
  Element "section"
    [className "border-t border-fd-border bg-fd-background px-4 py-20"]
    [Element "div" [className "mx-auto max-w-4xl text-center"]
       [Element "h2" [className "text-3xl font-bold mb-6"]
          [Text "Ready to optimize your AI agents?"];
        Element "p" [className "text-fd-muted-foreground text-lg mb-8"]
          [Text "Install Trace and start building self-improving AI systems in minutes."];
        Element "div"
          [className "mb-8 rounded-lg border border-fd-border bg-fd-muted/50 p-4 font-mono text-sm"]
          [Text "pip install trace-opt"];
        Element "div"
          [className "flex flex-col gap-4 sm:flex-row sm:justify-center"]
          [Component "Link"
             [href "/docs/getting-started";
              className "inline-flex items-center justify-center gap-2 rounded-lg bg-fd-primary px-6 py-3 text-fd-primary-foreground font-semibold hover:bg-fd-primary/90 transition-all"]
             [Text "Read the Docs";
              Component "ArrowRight" [className "h-4 w-4"] []];
           Component "Link"
             [href "/docs/tutorials";
              className "inline-flex items-center justify-center gap-2 rounded-lg border border-fd-border px-6 py-3 font-semibold hover:bg-fd-muted/50 transition-all"]
             [Text "View Tutorials"]]]].

Definition home_page : node :=
  Element "main" [className "flex flex-1 flex-col"]
    [hero; code_preview; features; call_to_action].

(** [HomePage()] returns the element of the page. *)
Definition HomePage : Js.Call Layout.BaseLayoutProps node :=
  Js.ret home_page.

End Home.

(* ===================================================================== *)
(** * Part VII: the repository as a whole                                  *)
(* ===================================================================== *)

Module Site.
Import Jsx Js Layout Home.

(** What the code of the repository can act on: the machine the setup
    script runs on, and the objects of the process that serves the site. *)
Record State := {
  machine : Shell.World;
  objects : gmap ref BaseLayoutProps;
}.

(** What the repository's code can do: run the script, call
    [baseOptions], call [HomePage]. *)
Inductive operation := RunSetup | CallBaseOptions | CallHomePage.

Definition perform (op : operation) (st : State) : State :=
  match op with
  | RunSetup =>
      {| machine := Shell.final (Setup.setup (machine st));
         objects := objects st |}
  | CallBaseOptions =>
      {| machine := machine st; objects := (baseOptions (objects st)).2 |}
  | CallHomePage =>
      {| machine := machine st; objects := (HomePage (objects st)).2 |}
  end.

Definition perform_all (ops : list operation) (st : State) : State :=
  foldl (λ st op, perform op st) st ops.

(** The object a call returns a reference to. *)
Definition returned_object (call : Call BaseLayoutProps ref)
    (σ : gmap ref BaseLayoutProps) : option BaseLayoutProps :=
  match call σ with
  | (Returned r, σ') => σ' !! r
  | (Thrown, _) => None
  end.

(** Rendering the home page: the markup of the element [HomePage()]
    returns, or [None] if the call or a component throws. *)
Definition render_home (lib : library) (σ : gmap ref BaseLayoutProps)
  : option string :=
  match HomePage σ with
  | (Returned page, _) => render lib page
  | (Thrown, _) => None
  end.

End Site.

(** ** What a run of the setup script needs, prints and changes *)

Module SetupEffects.
Import Shell Setup.

(** [chmod] can change the mode of [path]: it exists and the invoking user
    may change it. *)
Definition chmod_allowed (path : string) (w : World) : bool :=
  match fs w !! path with
  | Some i => may_chmod i
  | None => false
  end.

(** The package manager the script picks is found and its [install]
    succeeds. *)
Definition install_succeeds (w : World) : bool :=
  bool_decide (package_manager w ∈ PATH w)
  && (program_status w (package_manager w) ["install"] =? 0).

(** Everything the script needs in order to end with status 0. *)
Definition ready (w : World) : bool :=
  test_holds IsFile package_json w
  && install_succeeds w
  && bool_decide ("chmod" ∈ PATH w)
  && chmod_allowed generate_api_docs w
  && chmod_allowed convert_notebooks w.

Definition warning_lines (w : World) : list string :=
  if test_holds IsDir trace_repo w then []
  else [msg_warning; msg_warning_2; ""].

Definition closing_lines : list string :=
  [""; msg_complete; "";
   "📋 Available commands:";
   "   npm run dev                    - Start development server";
   "   npm run build                  - Build for production";
   "   npm run docs:generate-api      - Generate API documentation";
   "   npm run docs:convert-notebooks - Convert Jupyter notebooks";
   "   npm run docs:generate-all      - Run all generators";
   "";
   "🎉 Ready to go! Run 'npm run dev' to start."].

(** The lines a run on [w] is expected to print. *)
Definition output (w : World) : list string :=
  [msg_banner; ""]
    ++ (if test_holds IsFile package_json w then
          warning_lines w ++ [msg_installing]
            ++ (if install_succeeds w then
                  [msg_chmod] ++ (if ready w then closing_lines else [])
                else [])
        else [msg_error]).

(** The programs the script means to start, in order. *)
Definition plan (w : World) : list (string * list string) :=
  [(package_manager w, ["install"]);
   ("chmod", ["+x"; generate_api_docs]);
   ("chmod", ["+x"; convert_notebooks])].

(** Inode [i] with the executable bit on. *)
Definition marked (i : inode) : inode :=
  {| kind := kind i; executable := true; may_chmod := may_chmod i |}.

(** [w'] is [w] except that some of [paths] may have become executable:
    no path created or removed, no kind or ownership changed, the same
    programs found, with the same statuses. *)
Definition only_marked_executable (paths : list string) (w w' : World)
  : Prop :=
  PATH w' = PATH w
  ∧ program_status w' = program_status w
  ∧ ∀ p, match fs w !! p, fs w' !! p with
         | Some i, Some j => j = i ∨ (p ∈ paths ∧ j = marked i)
         | None, None => True
         | _, _ => False
         end.

(** [w] and [w'] agree on all that a command of the script reads: the
    paths, their kinds and ownership, the programs found and their
    statuses. Executable bits, which no command reads, are left free. *)
Definition same_modulo_executable (w w' : World) : Prop :=
  PATH w = PATH w'
  ∧ program_status w = program_status w'
  ∧ ∀ p, match fs w !! p, fs w' !! p with
         | Some i, Some j => kind i = kind j ∧ may_chmod i = may_chmod j
         | None, None => True
         | _, _ => False
         end.

(** The two helper scripts the script makes executable. *)
Definition helper_scripts : list string :=
  [generate_api_docs; convert_notebooks].

(** [w] and [w'] differ at most in the executable bits of the two helper
    scripts: the same paths, each with the same kind and the same
    ownership, every other path with the same executable bit, the same
    programs found, with the same statuses. *)
Definition same_but_helper_bits (w w' : World) : Prop :=
  PATH w = PATH w'
  ∧ program_status w = program_status w'
  ∧ ∀ p, match fs w !! p, fs w' !! p with
         | Some i, Some j =>
             kind i = kind j ∧ may_chmod i = may_chmod j
             ∧ (p ∉ helper_scripts → executable i = executable j)
         | None, None => True
         | _, _ => False
         end.

(** A machine on which the second [chmod] is refused: the script
    [convert_notebooks.py] belongs to someone else. *)
Definition foreign_file : inode :=
  {| kind := RegularFile; executable := false; may_chmod := false |}.

Definition half_owned_checkout : World :=
  {| fs := {[ package_json := plain_file;
              generate_api_docs := plain_file;
              convert_notebooks := foreign_file ]};
     PATH := every_program;
     program_status := λ _ _, 0 |}.

End SetupEffects.

(** ** What a page refers to *)

Module Page.
Import Jsx.

(** The imported components a tree uses, in document order. *)
Fixpoint components (n : node) : list string :=
  let fix all (ns : list node) : list string :=
    match ns with
    | [] => []
    | n :: ns => components n ++ all ns
    end in
  match n with
  | Text _ => []
  | Element _ _ children | Fragment children => all children
  | Component name _ children => name :: all children
  end.

(** The text of a tree: the text of its text nodes, in document order. *)
Fixpoint text_content (n : node) : string :=
  let fix all (ns : list node) : string :=
    match ns with
    | [] => ""
    | n :: ns => text_content n +:+ all ns
    end in
  match n with
  | Text s => s
  | Element _ _ children | Component _ _ children | Fragment children =>
      all children
  end.

(** The elements of a tree with a given tag, in document order. *)
Fixpoint tagged (tag : string) (n : node) : list node :=
  let fix all (ns : list node) : list node :=
    match ns with
    | [] => []
    | n :: ns => tagged tag n ++ all ns
    end in
  match n with
  | Text _ => []
  | Element t _ children =>
      (if bool_decide (t = tag) then [n] else []) ++ all children
  | Component _ _ children | Fragment children => all children
  end.

Fixpoint attr (key : string) (attrs : props) : option string :=
  match attrs with
  | [] => None
  | (k, v) :: attrs => if bool_decide (k = key) then Some v else attr key attrs
  end.

(** The [href] and the [target] of each [Link] of a tree. *)
Fixpoint link_targets (n : node) : list (option string * option string) :=
  let fix all (ns : list node) : list (option string * option string) :=
    match ns with
    | [] => []
    | n :: ns => link_targets n ++ all ns
    end in
  match n with
  | Text _ => []
  | Element _ _ children | Fragment children => all children
  | Component name attrs children =>
      (if bool_decide (name = "Link")
       then [(attr "href" attrs, attr "target" attrs)] else [])
        ++ all children
  end.

(** A link inside the site: its [href] is a path. *)
Definition internal (h : string) : bool := String.prefix "/" h.

(** What [app/(home)/page.tsx] imports: [Link] from next/link and seven
    icons from lucide-react. *)
Definition imported : list string :=
  ["Link"; "ArrowRight"; "Code2"; "Zap"; "GitBranch"; "BookOpen"; "Github";
   "Sparkles"].

(** Component [name] produces markup around the markup of its children. *)
Definition wraps (lib : library) (name : string) : Prop :=
  ∀ attrs inner,
    ∃ before after, lib name attrs inner = Some (before +:+ inner +:+ after).

(** A library that knows the eight imported components and throws on any
    other name. *)
Definition strict_library : library := λ name attrs inner,
  if bool_decide (name ∈ imported) then sample_library name attrs inner
  else None.

End Page.

(** ** The second revision of the home page

    The file [scripts/setup.sh] carries, after the script and a separator
    line, a second revision of the page component (lines 47 to 262), with
    the same imports. *)

Module HomeRevised.
Import Jsx.

(* Hero Section *)
Definition hero : node :=
  Element "section"
    [className "flex flex-col items-center justify-center px-4 py-24 text-center bg-gradient-to-b from-fd-background to-fd-muted/20"]
    [Element "div"
       [className "mb-6 inline-flex items-center gap-2 rounded-full border border-fd-border bg-fd-muted/50 px-4 py-2 text-sm backdrop-blur"]
       [Component "Sparkles" [className "h-4 w-4 text-fd-primary"] [];
        Element "span" [] [Text "AutoDiff for AI Agents"]];
     Element "h1"
       [className "mb-6 max-w-5xl text-4xl font-extrabold tracking-tight sm:text-5xl md:text-6xl lg:text-7xl bg-gradient-to-r from-pink-400 via-fuchsia-500 to-purple-500 bg-clip-text text-transparent leading-tight"]
       [Text "Welcome to the Era of Visual Agents with Trace2"];
     Element "p"
       [className "mb-10 max-w-2xl text-lg text-fd-muted-foreground sm:text-xl"]
       [Text "Train AI agents with general feedback like rewards, natural language, or compiler errors. Write Python code directly and optimize it like training neural networks."];
     Element "div" [className "flex flex-col gap-4 sm:flex-row"]
       [Component "Link"
          [href "/docs";
           className "group inline-flex items-center gap-2 rounded-lg bg-fd-primary px-6 py-3 text-fd-primary-foreground font-semibold shadow-lg hover:bg-fd-primary/90 transition-all"]
          [Text "Get Started";
           Component "ArrowRight"
             [className "h-4 w-4 transition-transform group-hover:translate-x-1"] []];
        Component "Link"
          [href "https://github.com/AgentOpt/OpenTrace";
           target "_blank";
           className "inline-flex items-center gap-2 rounded-lg border border-fd-border bg-fd-background px-6 py-3 font-semibold hover:bg-fd-muted/50 transition-all"]
          [Component "Github" [className "h-4 w-4"] [];
           Text "View on GitHub"]];
     Element "div" [className "mt-16 grid grid-cols-2 gap-8 sm:grid-cols-4"]
       [Element "div" [className "flex flex-col items-center"]
          [Element "div" [className "text-3xl font-bold text-fd-primary"]
             [Text "3"];
           Element "div" [className "text-sm text-fd-muted-foreground"]
             [Text "Optimizers"]];
        Element "div" [className "flex flex-col items-center"]
          [Element "div" [className "text-3xl font-bold text-fd-primary"]
             [Text "PyTorch-like"];
           Element "div" [className "text-sm text-fd-muted-foreground"]
             [Text "API"]];
        Element "div" [className "flex flex-col items-center"]
          [Element "div" [className "text-3xl font-bold text-fd-primary"]
             [Text "NeurIPS"];
           Element "div" [className "text-sm text-fd-muted-foreground"]
             [Text "2024"]];
        Element "div" [className "flex flex-col items-center"]
          [Element "div" [className "text-3xl font-bold text-fd-primary"]
             [Text "Open"];
           Element "div" [className "text-sm text-fd-muted-foreground"]
             [Text "Source"]]]].

(* Code Preview Section *)
Definition code_preview : node :=
  Element "section"
    [className "border-t border-fd-border bg-fd-background px-4 py-20"]
    [Element "div" [className "mx-auto max-w-6xl"]
       [Element "div" [className "text-center mb-12"]
          [Element "h2" [className "text-3xl font-bold mb-4"]
             [Text "Familiar PyTorch-like Syntax"];
           Element "p" [className "text-fd-muted-foreground text-lg"]
             [Text "Define trainable parameters and optimize them with a simple, intuitive API"]];
        Element "div"
          [className "rounded-xl border border-fd-border bg-[#0d1117] overflow-hidden shadow-2xl"]
          [Element "div"
             [className "bg-[#161b22] px-4 py-2 border-b border-[#30363d] flex items-center gap-2"]
             [Element "div" [className "flex gap-1.5"]
                [Element "div"
                   [className "h-3 w-3 rounded-full bg-red-500/80"] [];
                 Element "div"
                   [className "h-3 w-3 rounded-full bg-yellow-500/80"] [];
                 Element "div"
                   [className "h-3 w-3 rounded-full bg-green-500/80"] []];
              Element "span" [className "text-xs text-[#8b949e] ml-2"]
                [Text "quickstart.py"]];
           Element "pre"
             [className "p-6 overflow-x-auto text-sm leading-relaxed"]
             [Element "code" [className "language-python"]
                [Element "span" [className "text-[#ff7b72]"] [Text "from"];
                 Text " ";
                 Element "span" [className "text-[#d2a8ff]"]
                   [Text "opto.trace"];
                 Text " ";
                 Element "span" [className "text-[#ff7b72]"] [Text "import"];
                 Text " ";
                 Element "span" [className "text-[#d2a8ff]"] [Text "node"];
                 Element "span" [className "text-[#c9d1d9]"] [Text ","];
                 Text " ";
                 Element "span" [className "text-[#d2a8ff]"] [Text "bundle"];
                 Text newline;
                 Element "span" [className "text-[#ff7b72]"] [Text "from"];
                 Text " ";
                 Element "span" [className "text-[#d2a8ff]"]
                   [Text "opto.optimizers"];
                 Text " ";
                 Element "span" [className "text-[#ff7b72]"] [Text "import"];
                 Text " ";
                 Element "span" [className "text-[#d2a8ff]"]
                   [Text "OptoPrime"];
                 Text newline;
                 Text newline;
                 Element "span" [className "text-[#8b949e]"]
                   [Text "# Define trainable function"];
                 Text newline;
                 Element "span" [className "text-[#d2a8ff]"]
                   [Text "@bundle"];
                 Element "span" [className "text-[#c9d1d9]"] [Text "("];
                 Element "span" [className "text-[#79c0ff]"]
                   [Text "trainable"];
                 Element "span" [className "text-[#ff7b72]"] [Text "="];
                 Element "span" [className "text-[#79c0ff]"] [Text "True"];
                 Element "span" [className "text-[#c9d1d9]"] [Text ")"];
                 Text newline;
                 Element "span" [className "text-[#ff7b72]"] [Text "def"];
                 Text " ";
                 Element "span" [className "text-[#d2a8ff]"]
                   [Text "strange_sort_list"];
                 Element "span" [className "text-[#c9d1d9]"] [Text "("];
                 Element "span" [className "text-[#ffa657]"] [Text "lst"];
                 Element "span" [className "text-[#c9d1d9]"] [Text "):"];
                 Text newline;
                 Element "span" [className "text-[#c9d1d9]"] [Text "    "];
                 Element "span" [className "text-[#a5d6ff]"]
                   [Text "'''Sort list in strange order: min, max, min, max...'''"];
                 Text newline;
                 Element "span" [className "text-[#c9d1d9]"] [Text "    "];
                 Element "span" [className "text-[#ff7b72]"] [Text "return"];
                 Text " ";
                 Element "span" [className "text-[#d2a8ff]"] [Text "sorted"];
                 Element "span" [className "text-[#c9d1d9]"] [Text "("];
                 Element "span" [className "text-[#ffa657]"] [Text "lst"];
                 Element "span" [className "text-[#c9d1d9]"] [Text ")"];
                 Text newline;
                 Text newline;
                 Element "span" [className "text-[#8b949e]"]
                   [Text "# Optimize with feedback"];
                 Text newline;
                 Element "span" [className "text-[#ffa657]"]
                   [Text "optimizer"];
                 Text " ";
                 Element "span" [className "text-[#ff7b72]"] [Text "="];
                 Text " ";
                 Element "span" [className "text-[#d2a8ff]"]
                   [Text "OptoPrime"];
                 Element "span" [className "text-[#c9d1d9]"] [Text "("];
                 Element "span" [className "text-[#ffa657]"]
                   [Text "strange_sort_list"];
                 Element "span" [className "text-[#c9d1d9]"] [Text "."];
                 Element "span" [className "text-[#d2a8ff]"]
                   [Text "parameters"];
                 Element "span" [className "text-[#c9d1d9]"] [Text "())"];
                 Text newline;
                 Text newline;
                 Element "span" [className "text-[#ff7b72]"] [Text "for"];
                 Text " ";
                 Element "span" [className "text-[#ffa657]"] [Text "epoch"];
                 Text " ";
                 Element "span" [className "text-[#ff7b72]"] [Text "in"];
                 Text " ";
                 Element "span" [className "text-[#d2a8ff]"] [Text "range"];
                 Element "span" [className "text-[#c9d1d9]"] [Text "("];
                 Element "span" [className "text-[#a5d6ff]"] [Text "5"];
                 Element "span" [className "text-[#c9d1d9]"] [Text "):"];
                 Text newline;
                 Element "span" [className "text-[#c9d1d9]"] [Text "    "];
                 Element "span" [className "text-[#ffa657]"] [Text "output"];
                 Text " ";
                 Element "span" [className "text-[#ff7b72]"] [Text "="];
                 Text " ";
                 Element "span" [className "text-[#d2a8ff]"]
                   [Text "strange_sort_list"];
                 Element "span" [className "text-[#c9d1d9]"] [Text "(["];
                 Element "span" [className "text-[#a5d6ff]"] [Text "1"];
                 Element "span" [className "text-[#c9d1d9]"] [Text ","];
                 Text " ";
                 Element "span" [className "text-[#a5d6ff]"] [Text "2"];
                 Element "span" [className "text-[#c9d1d9]"] [Text ","];
                 Text " ";
                 Element "span" [className "text-[#a5d6ff]"] [Text "3"];
                 Element "span" [className "text-[#c9d1d9]"] [Text ","];
                 Text " ";
                 Element "span" [className "text-[#a5d6ff]"] [Text "4"];
                 Element "span" [className "text-[#c9d1d9]"] [Text "])"];
                 Text newline;
                 Element "span" [className "text-[#c9d1d9]"] [Text "    "];
                 Element "span" [className "text-[#ffa657]"]
                   [Text "feedback"];
                 Text " ";
                 Element "span" [className "text-[#ff7b72]"] [Text "="];
                 Text " ";
                 Element "span" [className "text-[#d2a8ff]"]
                   [Text "check_correctness"];
                 Element "span" [className "text-[#c9d1d9]"] [Text "("];
                 Element "span" [className "text-[#ffa657]"] [Text "output"];
                 Element "span" [className "text-[#c9d1d9]"] [Text ")"];
                 Text newline;
                 Element "span" [className "text-[#c9d1d9]"] [Text "    "];
                 Text newline;
                 Element "span" [className "text-[#c9d1d9]"] [Text "    "];
                 Element "span" [className "text-[#ffa657]"]
                   [Text "optimizer"];
                 Element "span" [className "text-[#c9d1d9]"] [Text "."];
                 Element "span" [className "text-[#d2a8ff]"]
                   [Text "zero_feedback"];
                 Element "span" [className "text-[#c9d1d9]"] [Text "()"];
                 Text newline;
                 Element "span" [className "text-[#c9d1d9]"] [Text "    "];
                 Element "span" [className "text-[#ffa657]"]
                   [Text "optimizer"];
                 Element "span" [className "text-[#c9d1d9]"] [Text "."];
                 Element "span" [className "text-[#d2a8ff]"]
                   [Text "backward"];
                 Element "span" [className "text-[#c9d1d9]"] [Text "("];
                 Element "span" [className "text-[#ffa657]"] [Text "output"];
                 Element "span" [className "text-[#c9d1d9]"] [Text ","];
                 Text " ";
                 Element "span" [className "text-[#ffa657]"]
                   [Text "feedback"];
                 Element "span" [className "text-[#c9d1d9]"] [Text ")"];
                 Text newline;
                 Element "span" [className "text-[#c9d1d9]"] [Text "    "];
                 Element "span" [className "text-[#ffa657]"]
                   [Text "optimizer"];
                 Element "span" [className "text-[#c9d1d9]"] [Text "."];
                 Element "span" [className "text-[#d2a8ff]"] [Text "step"];
                 Element "span" [className "text-[#c9d1d9]"] [Text "()"];
                 Text "  ";
                 Element "span" [className "text-[#8b949e]"]
                   [Text "# LLM updates the function!"]]]]]].

(* Features Section *)
Definition features : node :=
  Element "section"
    [className "border-t border-fd-border bg-fd-muted/20 px-4 py-20"]
    [Element "div" [className "mx-auto max-w-6xl"]
       [Element "div" [className "text-center mb-16"]
          [Element "h2" [className "text-3xl font-bold mb-4"]
             [Text "Why Trace2?"];
           Element "p" [className "text-fd-muted-foreground text-lg"]
             [Text "A new paradigm for training AI systems end-to-end"]];
        Element "div" [className "grid gap-8 md:grid-cols-2 lg:grid-cols-3"]
          [Element "div"
             [className "rounded-lg border border-fd-border bg-fd-card p-6 shadow-sm hover:shadow-lg transition-shadow"]
             [Element "div"
                [className "mb-4 inline-flex h-12 w-12 items-center justify-center rounded-lg bg-fd-primary/10"]
                [Component "GitBranch" [className "h-6 w-6 text-fd-primary"] []];
              Element "h3" [className "mb-2 text-xl font-semibold"]
                [Text "Computation Graph"];
              Element "p" [className "text-fd-muted-foreground"]
                [Text "Automatically traces execution to build a computation graph, just like autograd but for AI agents."]];
           Element "div"
             [className "rounded-lg border border-fd-border bg-fd-card p-6 shadow-sm hover:shadow-lg transition-shadow"]
             [Element "div"
                [className "mb-4 inline-flex h-12 w-12 items-center justify-center rounded-lg bg-fd-primary/10"]
                [Component "Code2" [className "h-6 w-6 text-fd-primary"] []];
              Element "h3" [className "mb-2 text-xl font-semibold"]
                [Text "Write Real Code"];
              Element "p" [className "text-fd-muted-foreground"]
                [Text "No need to wrap functions in strings. Write actual executable Python code with full IDE support."]];
           Element "div"
             [className "rounded-lg border border-fd-border bg-fd-card p-6 shadow-sm hover:shadow-lg transition-shadow"]
             [Element "div"
                [className "mb-4 inline-flex h-12 w-12 items-center justify-center rounded-lg bg-fd-primary/10"]
                [Component "Zap" [className "h-6 w-6 text-fd-primary"] []];
              Element "h3" [className "mb-2 text-xl font-semibold"]
                [Text "Multiple Optimizers"];
              Element "p" [className "text-fd-muted-foreground"]
                [Text "Choose from OptoPrime, OPRO, or TextGrad. Switch optimizers with a single line of code."]];
           Element "div"
             [className "rounded-lg border border-fd-border bg-fd-card p-6 shadow-sm hover:shadow-lg transition-shadow"]
             [Element "div"
                [className "mb-4 inline-flex h-12 w-12 items-center justify-center rounded-lg bg-fd-primary/10"]
                [Component "BookOpen" [className "h-6 w-6 text-fd-primary"] []];
              Element "h3" [className "mb-2 text-xl font-semibold"]
                [Text "Rich Feedback"];
              Element "p" [className "text-fd-muted-foreground"]
                [Text "Use any feedback: numerical rewards, natural language, compiler errors, or test results."]];
           Element "div"
             [className "rounded-lg border border-fd-border bg-fd-card p-6 shadow-sm hover:shadow-lg transition-shadow"]
             [Element "div"
                [className "mb-4 inline-flex h-12 w-12 items-center justify-center rounded-lg bg-fd-primary/10"]
                [Component "Sparkles" [className "h-6 w-6 text-fd-primary"] []];
              Element "h3" [className "mb-2 text-xl font-semibold"]
                [Text "LLM Backend Agnostic"];
              Element "p" [className "text-fd-muted-foreground"]
                [Text "Works with OpenAI, Anthropic, or any LiteLLM-supported provider. Easy API key management."]];
           Element "div"
             [className "rounded-lg border border-fd-border bg-fd-card p-6 shadow-sm hover:shadow-lg transition-shadow"]
             [Element "div"
                [className "mb-4 inline-flex h-12 w-12 items-center justify-center rounded-lg bg-fd-primary/10"]
                [Component "Github" [className "h-6 w-6 text-fd-primary"] []];
              Element "h3" [className "mb-2 text-xl font-semibold"]
                [Text "Research-Backed"];
              Element "p" [className "text-fd-muted-foreground"]
                [Text "Published at NeurIPS 2024. Battle-tested on NLP, robotics, and multi-agent tasks."]]]]].

(* CTA Section *)
Definition call_to_action : node :=
  Element "section"
    [className "border-t border-fd-border bg-fd-background px-4 py-20"]
    [Element "div" [className "mx-auto max-w-4xl text-center"]
       [Element "h2" [className "text-3xl font-bold mb-6"]
          [Text "Ready to optimize your AI agents?"];
        Element "p" [className "text-fd-muted-foreground text-lg mb-8"]
          [Text "Install Trace2 and start building self-improving AI systems in minutes."];
        Element "div"
          [className "mb-8 rounded-lg border border-fd-border bg-fd-muted/50 p-4 font-mono text-sm"]
          [Text "pip install trace-opt"];
        Element "div"
          [className "flex flex-col gap-4 sm:flex-row sm:justify-center"]
          [Component "Link"
             [href "/docs/getting-started/installation";
              className "inline-flex items-center justify-center gap-2 rounded-lg bg-fd-primary px-6 py-3 text-fd-primary-foreground font-semibold hover:bg-fd-primary/90 transition-all"]
             [Text "Read the Docs";
              Component "ArrowRight" [className "h-4 w-4"] []];
           Component "Link"
             [href "/docs/examples";
              className "inline-flex items-center justify-center gap-2 rounded-lg border border-fd-border px-6 py-3 font-semibold hover:bg-fd-muted/50 transition-all"]
             [Text "View Examples"]]]].

Definition home_page : node :=
  Element "main" [className "flex flex-1 flex-col"]
    [hero; code_preview; features; call_to_action].

(** [HomePage()] returns the element of the page. *)
Definition HomePage : Js.Call Layout.BaseLayoutProps node :=
  Js.ret home_page.

End HomeRevised.

(** ** Imported components as a page uses them

    The components a page imports (next/link, lucide-react) are no part of
    the repository. What a page asks of them is asked of each component
    with the props the page gives it, and of nothing else. *)

Module Components.
Import Jsx Js Layout Page.








End Components.

(** ** The process a page is rendered in

    A function component is called by the renderer; its body is a JSX
    expression. Evaluating the expression can read state in one way only:
    through the identifiers it mentions. Rendering the element that comes
    out runs the imported components, which are free to read and to change
    the state of the process. *)

Module Process.
Import Jsx Page Components.

(** *** Evaluating a JSX expression

    A JSX expression is written as the tree it denotes. A lower-case tag
    is a string. A capitalised tag is an identifier: it is resolved among
    the bindings of the module (its imports, which the module cannot
    assign); one that the module does not bind is looked up on the global
    object, which any code of the process can change, and one that is
    bound nowhere throws a ReferenceError. Props and text are literals.
    The tag is evaluated before the children, the children from left to
    right. Building the element itself allocates an immutable value and
    does nothing else. *)

(** What an evaluation read of the mutable state. *)
Inductive access := ReadGlobal (name : string).

(** The global object: each name with the component it holds. *)
Definition globals := gmap string string.

Definition resolve (bound : list string) (g : globals) (name : string)
  : option string * list access :=
  if bool_decide (name ∈ bound) then (Some name, [])
  else (g !! name, [ReadGlobal name]).

Section Evaluate.
Variable bound : list string.
Variable g : globals.

(** The element, or [None] for a ReferenceError, and what was read. *)
Fixpoint evaluate (n : node) : option node * list access :=
  let fix evaluate_all (ns : list node) : option (list node) * list access :=
    match ns with
    | [] => (Some [], [])
    | n :: ns =>
        match evaluate n with
        | (Some v, a) =>
            match evaluate_all ns with
            | (Some vs, b) => (Some (v :: vs), a ++ b)
            | (None, b) => (None, a ++ b)
            end
        | (None, a) => (None, a)
        end
    end in
  match n with
  | Text s => (Some (Text s), [])
  | Element tag attrs children =>
      match evaluate_all children with
      | (Some vs, a) => (Some (Element tag attrs vs), a)
      | (None, a) => (None, a)
      end
  | Component name attrs children =>
      match resolve bound g name with
      | (Some c, a) =>
          match evaluate_all children with
          | (Some vs, b) => (Some (Component c attrs vs), a ++ b)
          | (None, b) => (None, a ++ b)
          end
      | (None, a) => (None, a)
      end
  | Fragment children =>
      match evaluate_all children with
      | (Some vs, a) => (Some (Fragment vs), a)
      | (None, a) => (None, a)
      end
  end.

Fixpoint evaluate_all (ns : list node) : option (list node) * list access :=
  match ns with
  | [] => (Some [], [])
  | n :: ns =>
      match evaluate n with
      | (Some v, a) =>
          match evaluate_all ns with
          | (Some vs, b) => (Some (v :: vs), a ++ b)
          | (None, b) => (None, a ++ b)
          end
      | (None, a) => (None, a)
      end
  end.

End Evaluate.

(** *** Rendering with components that have state

    An imported component, run in a state of the process, gives markup (or
    throws) and leaves a state. The state is threaded through the
    components in the order their markup is produced: the children of a
    node from left to right, then the component around them. A component
    that throws ends the rendering. *)

Section Stateful.
Context {St : Type}.

Definition stateful_library := string → props → string → St → option string * St.

Variable lib : stateful_library.

Fixpoint render_in (n : node) (s : St) : option string * St :=
  let fix render_all_in (ns : list node) (s : St) : option string * St :=
    match ns with
    | [] => (Some "", s)
    | n :: ns =>
        match render_in n s with
        | (Some o, s') =>
            match render_all_in ns s' with
            | (Some os, s'') => (Some (o +:+ os), s'')
            | (None, s'') => (None, s'')
            end
        | (None, s') => (None, s')
        end
    end in
  match n with
  | Text t => (Some (escape t), s)
  | Element tag attrs children =>
      match render_all_in children s with
      | (Some inner, s') => (Some (render_element tag attrs inner), s')
      | (None, s') => (None, s')
      end
  | Component name attrs children =>
      match render_all_in children s with
      | (Some inner, s') => lib name attrs inner s'
      | (None, s') => (None, s')
      end
  | Fragment children => render_all_in children s
  end.

Fixpoint render_all_in (ns : list node) (s : St) : option string * St :=
  match ns with
  | [] => (Some "", s)
  | n :: ns =>
      match render_in n s with
      | (Some o, s') =>
          match render_all_in ns s' with
          | (Some os, s'') => (Some (o +:+ os), s'')
          | (None, s'') => (None, s'')
          end
      | (None, s') => (None, s')
      end
  end.



End Stateful.
Arguments stateful_library St : clear implicits.

(** Components without state. *)
Definition stateless {St : Type} (lib : library) : stateful_library St :=
  λ name attrs inner s, (lib name attrs inner, s).


End Process.

(* ===================================================================== *)
(** * Part VIII: properties of the setup script                            *)
(* ===================================================================== *)

Section SetupScript.
Import Shell Setup.

(** *** Stepping through a script *)

Lemma step_eq cnd c st n w :
  run_command c (world st) = (n, w) →
  step cnd c st = (Continue n, after st cnd c n w).
Proof. intros E. unfold step. rewrite E. reflexivity. Qed.

Lemma simple_eq c st n w :
  run_command c (world st) = (n, w) →
  errexit (after st false c n w) = true →
  simple c st =
    if n =? 0 then (Continue tt, after st false c n w)
    else (Terminated n, after st false c n w).
Proof.
  intros E He. unfold simple. rewrite (step_eq _ _ _ _ _ E), He.
  destruct (n =? 0); reflexivity.
Qed.

Lemma bind_simple {A} c (k : unit → Sh A) st n w :
  run_command c (world st) = (n, w) →
  errexit (after st false c n w) = true →
  (simple c ≫= k) st =
    if n =? 0 then k tt (after st false c n w)
    else (Terminated n, after st false c n w).
Proof.
  intros E He. unfold mbind, Sh_bind. rewrite (simple_eq _ _ _ _ E He).
  destruct (n =? 0); reflexivity.
Qed.

Lemma bind_if {A} c (t e : Sh unit) (k : unit → Sh A) st n w :
  run_command c (world st) = (n, w) →
  (if_then_else c t e ≫= k) st =
    ((if n =? 0 then t else e) ≫= k) (after st true c n w).
Proof.
  intros E. unfold if_then_else, condition, mbind, Sh_bind, mret, Sh_ret.
  rewrite (step_eq _ _ _ _ _ E). reflexivity.
Qed.

Lemma bind_fi {A} (k : unit → Sh A) st :
  (fi ≫= k) st =
    k tt {| world := world st; errexit := errexit st; last_status := 0;
            trace := trace st |}.
Proof. reflexivity. Qed.

Lemma bind_assoc {A B C} (m : Sh A) (f : A → Sh B) (g : B → Sh C) st :
  ((m ≫= f) ≫= g) st = (m ≫= λ a, f a ≫= g) st.
Proof.
  unfold mbind, Sh_bind. destruct (m st) as [[a|n] st']; reflexivity.
Qed.

Lemma bind_exit {A B} n (k : A → Sh B) st :
  (exit n ≫= k) st = (Terminated n, after st false (Exit n) n (world st)).
Proof. reflexivity. Qed.

Lemma bind_set_e {A} (k : unit → Sh A) st :
  (set_e ≫= k) st = k tt (after st false SetE 0 (world st)).
Proof. unfold set_e. rewrite (bind_simple SetE k st 0 (world st)); reflexivity. Qed.

Lemma bind_echo {A} l (k : unit → Sh A) st :
  (echo l ≫= k) st = k tt (after st false (Echo l) 0 (world st)).
Proof.
  unfold echo, mbind, Sh_bind, simple, step. cbn.
  rewrite andb_false_r. reflexivity.
Qed.

Lemma bind_external {A} prog args (k : unit → Sh A) st n w :
  run_command (External prog args) (world st) = (n, w) →
  errexit st = true →
  (external prog args ≫= k) st =
    if n =? 0 then k tt (after st false (External prog args) n w)
    else (Terminated n, after st false (External prog args) n w).
Proof. intros E He. unfold external. apply bind_simple; assumption. Qed.

Lemma echo_eq l st :
  echo l st = (Continue tt, after st false (Echo l) 0 (world st)).
Proof.
  unfold echo, simple, step. cbn. rewrite andb_false_r. reflexivity.
Qed.

(** The package managers act on the machine only through their exit
    status. *)
Lemma install_world pm w n w' :
  pm = "yarn" ∨ pm = "npm" →
  run_command (External pm ["install"]) w = (n, w') → w' = w.
Proof.
  intros [-> | ->]; cbn; case_decide; cbn; congruence.
Qed.

Ltac sh_cbn := cbn [Z.eqb after world errexit last_status trace app].
Ltac sh_echo := rewrite bind_echo; sh_cbn.

(** Runs the command at the head of the script, whose outcome on the
    current machine is given by [E]. *)
Ltac sh_external E :=
  erewrite bind_external by first [exact E | reflexivity]; sh_cbn.

(** Under [set -e] the script goes on only if status [n] is 0. *)
Ltac sh_status n := destruct (Z.eqb_spec n 0) as [-> | ?]; [| reflexivity].

(** Symbolic execution of the whole script: the run as a decision tree
    over what the script observes. *)
Lemma setup_unfold (w : World) :
  setup w =
    if test_holds IsFile package_json w then
      let '(n, _) := run_command (install w) w in
      if n =? 0 then
        let '(n1, w1) := run_command chmod_generate w in
        let t1 := until_install w 0 ++ [stmt (Echo msg_chmod) 0; stmt chmod_generate n1] in
        if n1 =? 0 then
          let '(n2, w2) := run_command chmod_convert w1 in
          if n2 =? 0 then
            {| exit_status := 0;
               events := t1 ++ [stmt chmod_convert 0] ++ closing;
               final := w2 |}
          else
            {| exit_status := n2; events := t1 ++ [stmt chmod_convert n2];
               final := w2 |}
        else {| exit_status := n1; events := t1; final := w1 |}
      else {| exit_status := n; events := until_install w n; final := w |}
    else
      {| exit_status := 1;
         events := opening ++ [cond (TestNot IsFile package_json) 0;
                               stmt (Echo msg_error) 0; stmt (Exit 1) 1];
         final := w |}.
Proof.
  unfold setup, run, setup_sh, initial, until_install, trace_check.
  rewrite bind_set_e; sh_cbn. do 2 sh_echo.
  (* the package.json check *)
  erewrite bind_if by reflexivity. sh_cbn.
  destruct (test_holds IsFile package_json w); sh_cbn.
  2: { rewrite bind_assoc, bind_echo, bind_exit. reflexivity. }
  rewrite bind_fi; sh_cbn.
  (* the ../Trace check *)
  erewrite bind_if by reflexivity. sh_cbn.
  destruct (run_command (install w) w) as [n w'] eqn:E.
  assert (w' = w) as ->.
  { eapply install_world; [|exact E]. unfold package_manager.
    case_decide; auto. }
  destruct (run_command chmod_generate w) as [n1 w1] eqn:E1.
  destruct (run_command chmod_convert w1) as [n2 w2] eqn:E2.
  destruct (test_holds IsDir trace_repo w); sh_cbn;
    [ rewrite bind_fi | do 2 (rewrite bind_assoc; sh_echo); sh_echo ]; sh_cbn;
    (* installation *)
    sh_echo;
    (erewrite bind_if by reflexivity); sh_cbn;
    unfold install, package_manager in *;
    (destruct (decide ("yarn" ∈ PATH w)); sh_cbn;
     sh_external E;
     sh_status n;
     (* the helper scripts *)
     sh_echo;
     sh_external E1;
     sh_status n1;
     sh_external E2;
     sh_status n2;
     repeat sh_echo; rewrite echo_eq; reflexivity).
Qed.

(** *** Facts about single commands *)

Lemma chmod_x_missing path w :
  fs w !! path = None → chmod_x path w = (1, w).
Proof. intros E. unfold chmod_x. rewrite E. reflexivity. Qed.

Lemma chmod_x_other path w q :
  q ≠ path → fs (chmod_x path w).2 !! q = fs w !! q.
Proof.
  intros Hq. unfold chmod_x.
  destruct (fs w !! path) as [i|]; [destruct (may_chmod i)|]; cbn;
    [rewrite lookup_insert_ne by congruence|..]; reflexivity.
Qed.

(** [chmod +x] of a path that does not exist never gives status 0,
    whether or not [chmod] itself is found. *)
Lemma run_chmod_missing path w :
  fs w !! path = None →
  ∃ n, n ≠ 0 ∧ run_command (External "chmod" ["+x"; path]) w = (n, w).
Proof.
  intros E. cbn. case_decide.
  - exists 1. rewrite (chmod_x_missing _ _ E). split; [lia | reflexivity].
  - exists 127. split; [lia | reflexivity].
Qed.

Lemma run_chmod_other path w q :
  q ≠ path →
  fs (run_command (External "chmod" ["+x"; path]) w).2 !! q = fs w !! q.
Proof.
  intros Hq. cbn. case_decide; [apply chmod_x_other; exact Hq | reflexivity].
Qed.

(** *** Shapes of a run *)

Ltac setup_cases w :=
  unfold until_install, trace_check, install, package_manager,
    chmod_generate, chmod_convert, opening, closing in *;
  destruct (test_holds IsDir trace_repo w);
  destruct (decide ("yarn" ∈ PATH w)).

Ltac not_in_list :=
  let H := fresh in
  intros H; repeat (apply elem_of_cons in H as [H|H]; [discriminate H|]);
  by apply elem_of_nil in H.

(** C1. Started in a directory without a regular file [package.json], the
    script prints the error message, exits with status 1, and runs none of
    the later steps: no check of [../Trace], no program started (neither a
    package manager nor [chmod]), the machine left as it was. *)
Theorem setup_without_package_json (w : World) :
  test_holds IsFile package_json w = false →
  exit_status (setup w) = 1
  ∧ echoed (setup w) = [msg_banner; ""; msg_error]
  ∧ commands (setup w) =
      [SetE; Echo msg_banner; Echo ""; TestNot IsFile package_json;
       Echo msg_error; Exit 1]
  ∧ (TestNot IsDir trace_repo ∉ commands (setup w))
  ∧ started (setup w) = []
  ∧ final (setup w) = w.
Proof.
  intros Hpkg. rewrite setup_unfold, Hpkg.
  repeat split; try reflexivity.
  cbn. not_in_list.
Qed.

Lemma setup_without_package_json_witness :
  test_holds IsFile package_json elsewhere = false
  ∧ exit_status (setup elsewhere) = 1
  ∧ echoed (setup elsewhere) = [msg_banner; ""; msg_error]
  ∧ commands (setup elsewhere) =
      [SetE; Echo msg_banner; Echo ""; TestNot IsFile package_json;
       Echo msg_error; Exit 1]
  ∧ (TestNot IsDir trace_repo ∉ commands (setup elsewhere))
  ∧ started (setup elsewhere) = []
  ∧ final (setup elsewhere) = elsewhere.
Proof.
  split; [reflexivity|].
  apply (setup_without_package_json elsewhere). reflexivity.
Defined.

(** C2. Started in a directory with [package.json], and provided every
    command the script runs in statement position succeeds, the script
    does not print the precondition error, starts the package manager,
    then [chmod] on the two helper scripts, in that order and nothing
    else, prints the completion message and exits with status 0. *)
Theorem setup_with_package_json (w : World) :
  test_holds IsFile package_json w = true →
  all_succeed (setup w) →
  (msg_error ∉ echoed (setup w))
  ∧ started (setup w) =
      [(package_manager w, ["install"]);
       ("chmod", ["+x"; generate_api_docs]);
       ("chmod", ["+x"; convert_notebooks])]
  ∧ msg_complete ∈ echoed (setup w)
  ∧ exit_status (setup w) = 0.
Proof.
  intros Hpkg Hall. unfold all_succeed in Hall.
  rewrite setup_unfold, Hpkg in *.
  destruct (run_command (install w) w) as [n w0] eqn:E.
  destruct (Z.eqb_spec n 0) as [-> | Hn].
  2: { exfalso. apply Hn, (Hall (stmt (install w) n)); [|reflexivity].
       unfold until_install. cbn [events]. set_solver. }
  destruct (run_command chmod_generate w) as [n1 w1] eqn:E1.
  cbn zeta in *.
  destruct (Z.eqb_spec n1 0) as [-> | Hn1].
  2: { exfalso. apply Hn1, (Hall (stmt chmod_generate n1)); [|reflexivity].
       cbn [events]. set_solver. }
  destruct (run_command chmod_convert w1) as [n2 w2] eqn:E2.
  destruct (Z.eqb_spec n2 0) as [-> | Hn2].
  2: { exfalso. apply Hn2, (Hall (stmt chmod_convert n2)); [|reflexivity].
       cbn [events]. set_solver. }
  clear Hall. unfold echoed, started, commands. cbn [events exit_status].
  setup_cases w; cbn; (split; [not_in_list|]);
    (split; [reflexivity|]); (split; [|reflexivity]); set_solver.
Qed.

Lemma checkout_all_succeed : all_succeed (setup (checkout every_program)).
Proof.
  unfold all_succeed.
  apply (proj1 (Forall_forall (λ e, ev_condition e = false → ev_status e = 0) _)).
  vm_compute. repeat constructor; intros; first [reflexivity | discriminate].
Qed.

Lemma setup_with_package_json_witness :
  test_holds IsFile package_json (checkout every_program) = true
  ∧ all_succeed (setup (checkout every_program))
  ∧ (msg_error ∉ echoed (setup (checkout every_program)))
  ∧ started (setup (checkout every_program)) =
      [(package_manager (checkout every_program), ["install"]);
       ("chmod", ["+x"; generate_api_docs]);
       ("chmod", ["+x"; convert_notebooks])]
  ∧ msg_complete ∈ echoed (setup (checkout every_program))
  ∧ exit_status (setup (checkout every_program)) = 0.
Proof.
  split; [reflexivity|]. split; [exact checkout_all_succeed|].
  apply (setup_with_package_json (checkout every_program));
    [reflexivity | exact checkout_all_succeed].
Defined.

(** C9. A run that ends with status 0 started a package manager exactly
    once: [yarn install] when [yarn] is found on PATH, [npm install]
    otherwise. *)
Theorem setup_installs_once (w : World) :
  exit_status (setup w) = 0 →
  installs (setup w) = [if decide ("yarn" ∈ PATH w) then "yarn" else "npm"].
Proof.
  rewrite setup_unfold.
  destruct (test_holds IsFile package_json w); [|discriminate].
  destruct (run_command (install w) w) as [n w0].
  destruct (Z.eqb_spec n 0) as [-> | Hn]; [|intros; contradiction].
  destruct (run_command chmod_generate w) as [n1 w1]. cbn zeta.
  destruct (Z.eqb_spec n1 0) as [-> | Hn1]; [|intros; contradiction].
  destruct (run_command chmod_convert w1) as [n2 w2].
  destruct (Z.eqb_spec n2 0) as [-> | Hn2]; [|intros; contradiction].
  intros _. unfold installs, started, commands. cbn [events].
  setup_cases w; reflexivity.
Qed.

Lemma setup_installs_once_witness :
  exit_status (setup (checkout every_program)) = 0
  ∧ installs (setup (checkout every_program)) =
      [if decide ("yarn" ∈ PATH (checkout every_program)) then "yarn" else "npm"].
Proof.
  split; [reflexivity|].
  apply (setup_installs_once (checkout every_program)). reflexivity.
Defined.

(** C10. If one of the two helper scripts does not exist, the script ends
    with a non-zero status and never prints the completion message; and
    when [package.json] is present and the installation succeeded, the
    command that ended it is one of the two [chmod]s. Status 0 thus needs
    both helper scripts. *)
Theorem setup_needs_helper_scripts (w : World) :
  fs w !! generate_api_docs = None ∨ fs w !! convert_notebooks = None →
  exit_status (setup w) ≠ 0
  ∧ (msg_complete ∉ echoed (setup w))
  ∧ (test_holds IsFile package_json w = true →
     (run_command (install w) w).1 = 0 →
     ∃ c n, (c = chmod_generate ∨ c = chmod_convert) ∧ n ≠ 0
            ∧ last (events (setup w)) = Some (stmt c n)
            ∧ exit_status (setup w) = n).
Proof.
  intros Habsent. rewrite setup_unfold.
  destruct (test_holds IsFile package_json w).
  2: { split; [discriminate|]. split; [cbn; not_in_list | discriminate]. }
  destruct (run_command (install w) w) as [n w0]. cbn [fst].
  destruct (Z.eqb_spec n 0) as [-> | Hn].
  2: { split; [exact Hn|]. split; [|intros; contradiction].
       unfold echoed, commands. cbn [events].
       setup_cases w; cbn; not_in_list. }
  assert (∃ c m, (c = chmod_generate ∨ c = chmod_convert) ∧ m ≠ 0 ∧
    (let '(n1, w1) := run_command chmod_generate w in
     if n1 =? 0
     then let '(n2, w2) := run_command chmod_convert w1 in
          n2 ≠ 0 ∧ n2 = m ∧ c = chmod_convert
     else n1 = m ∧ c = chmod_generate)) as (c & m & Hc & Hm & Hrun).
  { destruct (fs w !! generate_api_docs) as [i|] eqn:Hgen.
    - destruct Habsent as [? | Hconv]; [discriminate|].
      destruct (run_command chmod_generate w) as [n1 w1] eqn:E1.
      destruct (Z.eqb_spec n1 0) as [-> | Hn1].
      + assert (fs w1 !! convert_notebooks = None) as Hconv1.
        { replace w1 with (run_command chmod_generate w).2 by (rewrite E1; done).
          unfold chmod_generate. rewrite run_chmod_other; done. }
        destruct (run_chmod_missing _ _ Hconv1) as (n2 & Hn2 & E2).
        exists chmod_convert, n2. unfold chmod_convert. rewrite E2. auto.
      + exists chmod_generate, n1. auto.
    - destruct (run_chmod_missing _ _ Hgen) as (n1 & Hn1 & E1).
      exists chmod_generate, n1. unfold chmod_generate. rewrite E1.
      destruct (Z.eqb_spec n1 0); [contradiction | auto]. }
  destruct (run_command chmod_generate w) as [n1 w1]. cbn zeta.
  destruct (Z.eqb_spec n1 0) as [-> | Hn1].
  - destruct (run_command chmod_convert w1) as [n2 w2].
    destruct Hrun as (Hn2 & -> & ->).
    destruct (Z.eqb_spec m 0) as [-> | _]; [contradiction|].
    split; [exact Hm|]. split.
    + unfold echoed, commands. cbn [events]. setup_cases w; cbn; not_in_list.
    + intros _ _. exists chmod_convert, m. cbn [events exit_status].
      rewrite last_snoc. auto.
  - destruct Hrun as (-> & ->).
    split; [exact Hm|]. split.
    + unfold echoed, commands. cbn [events]. setup_cases w; cbn; not_in_list.
    + intros _ _. exists chmod_generate, m. cbn [events exit_status].
      rewrite last_app. auto.
Qed.

Lemma setup_needs_helper_scripts_witness :
  (fs (bare_checkout every_program) !! generate_api_docs = None
   ∨ fs (bare_checkout every_program) !! convert_notebooks = None)
  ∧ exit_status (setup (bare_checkout every_program)) ≠ 0
  ∧ (msg_complete ∉ echoed (setup (bare_checkout every_program)))
  ∧ (test_holds IsFile package_json (bare_checkout every_program) = true →
     (run_command (install (bare_checkout every_program))
                  (bare_checkout every_program)).1 = 0 →
     ∃ c n, (c = chmod_generate ∨ c = chmod_convert) ∧ n ≠ 0
            ∧ last (events (setup (bare_checkout every_program)))
              = Some (stmt c n)
            ∧ exit_status (setup (bare_checkout every_program)) = n).
Proof.
  split; [left; reflexivity|].
  apply (setup_needs_helper_scripts (bare_checkout every_program)).
  left. reflexivity.
Defined.

(** *** The [../Trace] check *)

Lemma same_test_holds w w' op p :
  same_but_trace_repo w w' → p ≠ trace_repo →
  test_holds op p w = test_holds op p w'.
Proof. intros (_ & _ & Hfs) Hp. unfold test_holds. rewrite (Hfs p Hp). done. Qed.

Lemma same_install w w' :
  same_but_trace_repo w w' →
  install w = install w'
  ∧ (run_command (install w) w).1 = (run_command (install w') w').1.
Proof.
  intros (HP & Hst & _). unfold install, package_manager. rewrite <- HP.
  split; [reflexivity|].
  case_decide; cbn; rewrite <- HP; case_decide; cbn; rewrite ?Hst; reflexivity.
Qed.

Lemma same_chmod w w' p :
  same_but_trace_repo w w' → p ≠ trace_repo →
  (run_command (External "chmod" ["+x"; p]) w).1
    = (run_command (External "chmod" ["+x"; p]) w').1
  ∧ same_but_trace_repo (run_command (External "chmod" ["+x"; p]) w).2
                        (run_command (External "chmod" ["+x"; p]) w').2.
Proof.
  intros (HP & Hst & Hfs) Hp. cbn. rewrite <- HP.
  case_decide; [|by repeat split].
  unfold chmod_x. rewrite <- (Hfs p Hp).
  destruct (fs w !! p) as [i|]; [destruct (may_chmod i)|]; cbn;
    try by repeat split.
  repeat split; try done. cbn. intros q Hq.
  destruct (decide (p = q)) as [<- | Hpq].
  - by rewrite !lookup_insert_eq.
  - rewrite !lookup_insert_ne by done. by apply Hfs.
Qed.

(** Exit status and started programs, read off the decision tree. *)
Lemma setup_outcome w :
  (exit_status (setup w), started (setup w)) =
    if test_holds IsFile package_json w then
      let n := (run_command (install w) w).1 in
      let pm := (package_manager w, ["install"]) in
      if n =? 0 then
        let n1 := (run_command chmod_generate w).1 in
        let w1 := (run_command chmod_generate w).2 in
        let c1 := ("chmod", ["+x"; generate_api_docs]) in
        if n1 =? 0 then
          let n2 := (run_command chmod_convert w1).1 in
          (n2, [pm; c1; ("chmod", ["+x"; convert_notebooks])])
        else (n1, [pm; c1])
      else (n, [pm])
    else (1, []).
Proof.
  rewrite setup_unfold.
  destruct (test_holds IsFile package_json w); [|reflexivity].
  destruct (run_command (install w) w) as [n w0]. cbn [fst].
  destruct (Z.eqb_spec n 0) as [-> | Hn].
  2: { unfold started, commands. cbn [events exit_status].
       setup_cases w; reflexivity. }
  destruct (run_command chmod_generate w) as [n1 w1]. cbn [fst snd].
  destruct (Z.eqb_spec n1 0) as [-> | Hn1].
  2: { unfold started, commands. cbn [events exit_status].
       setup_cases w; reflexivity. }
  destruct (run_command chmod_convert w1) as [n2 w2]. cbn [fst].
  destruct (Z.eqb_spec n2 0) as [-> | Hn2];
    unfold started, commands; cbn [events exit_status];
    setup_cases w; reflexivity.
Qed.

(** The ways the script can end with a non-zero status: the missing
    [package.json], or a failed installation or [chmod]. *)
Lemma setup_error_paths w :
  exit_status (setup w) ≠ 0 →
  (test_holds IsFile package_json w = false ∧ exit_status (setup w) = 1)
  ∨ ∃ c, (c = install w ∨ c = chmod_generate ∨ c = chmod_convert)
         ∧ last (events (setup w)) = Some (stmt c (exit_status (setup w))).
Proof.
  rewrite setup_unfold.
  destruct (test_holds IsFile package_json w); [|by left].
  intros Hexit. right.
  destruct (run_command (install w) w) as [n w0].
  destruct (Z.eqb_spec n 0) as [-> | Hn].
  2: { exists (install w). split; [auto|]. cbn [events exit_status].
       unfold until_install. by rewrite !app_assoc, last_app. }
  destruct (run_command chmod_generate w) as [n1 w1]. cbn zeta in *.
  destruct (Z.eqb_spec n1 0) as [-> | Hn1].
  2: { exists chmod_generate. split; [auto|]. cbn [events exit_status].
       by rewrite last_app. }
  destruct (run_command chmod_convert w1) as [n2 w2].
  destruct (Z.eqb_spec n2 0) as [-> | Hn2]; [done|].
  exists chmod_convert. split; [auto|]. cbn [events exit_status].
  by rewrite last_snoc.
Qed.

(** C5. A missing [../Trace] is not an error. On a machine [w] without
    that directory, the exit status and the programs started are the same
    as on any machine [w'] that differs from [w] only at [../Trace]; a
    non-zero exit status comes from the missing [package.json] or from a
    failed installation or [chmod], never from this check; and past the
    [package.json] check the script runs, between the [../Trace] check and
    the installation step, only the three [echo]s of the warning, then
    goes on to the installation. *)
Theorem setup_missing_trace_repo_only_warns (w w' : World) :
  test_holds IsDir trace_repo w = false →
  same_but_trace_repo w w' →
  exit_status (setup w) = exit_status (setup w')
  ∧ started (setup w) = started (setup w')
  ∧ (exit_status (setup w) ≠ 0 →
     (test_holds IsFile package_json w = false ∧ exit_status (setup w) = 1)
     ∨ ∃ c, (c = install w ∨ c = chmod_generate ∨ c = chmod_convert)
            ∧ last (events (setup w)) = Some (stmt c (exit_status (setup w))))
  ∧ (test_holds IsFile package_json w = true →
     ∃ n post,
       events (setup w) =
         opening
           ++ [cond (TestNot IsFile package_json) 1;
               cond (TestNot IsDir trace_repo) 0;
               stmt (Echo msg_warning) 0; stmt (Echo msg_warning_2) 0;
               stmt (Echo "") 0;
               stmt (Echo msg_installing) 0;
               cond (CommandV "yarn") (if decide ("yarn" ∈ PATH w) then 0 else 1);
               stmt (install w) n]
           ++ post).
Proof.
  intros Hdir Hsame.
  assert ((exit_status (setup w), started (setup w))
          = (exit_status (setup w'), started (setup w'))) as Hout; last first.
  { injection Hout as Hexit Hstarted. split; [exact Hexit|].
    split; [exact Hstarted|]. split; [apply setup_error_paths|].
    revert Hexit Hstarted. intros _ _.
    intros Hpkg. rewrite setup_unfold, Hpkg.
    destruct (run_command (install w) w) as [n w0].
    unfold until_install, trace_check. rewrite Hdir.
    destruct (n =? 0).
    + destruct (run_command chmod_generate w) as [n1 w1]. cbn zeta.
      destruct (n1 =? 0); [destruct (run_command chmod_convert w1) as [n2 w2];
                           destruct (n2 =? 0)|];
        cbn [events]; exists 0; eexists; rewrite <- ?app_assoc; reflexivity.
    + exists n, []. cbn [events]. rewrite app_nil_r. reflexivity. }
  - rewrite !setup_outcome.
    rewrite <- (same_test_holds w w' IsFile package_json Hsame) by done.
    destruct (test_holds IsFile package_json w); [|reflexivity].
    destruct (same_install w w' Hsame) as [Hpm <-].
    assert (package_manager w = package_manager w') as <-
      by (unfold install in Hpm; congruence).
    cbn zeta. destruct (_ =? 0); [|reflexivity].
    unfold chmod_generate, chmod_convert.
    destruct (same_chmod w w' generate_api_docs Hsame) as [<- Hsame1]; [done|].
    destruct (_ =? 0); [|reflexivity].
    destruct (same_chmod _ _ convert_notebooks Hsame1) as [<- _]; done.
Qed.

Lemma lone_checkout_same_but_trace_repo :
  same_but_trace_repo (lone_checkout every_program) (checkout every_program).
Proof.
  repeat split. intros p Hp. cbn [lone_checkout fs].
  by rewrite lookup_delete_ne.
Qed.

Lemma setup_missing_trace_repo_only_warns_witness :
  test_holds IsDir trace_repo (lone_checkout every_program) = false
  ∧ same_but_trace_repo (lone_checkout every_program) (checkout every_program)
  ∧ exit_status (setup (lone_checkout every_program))
    = exit_status (setup (checkout every_program))
  ∧ started (setup (lone_checkout every_program))
    = started (setup (checkout every_program))
  ∧ (exit_status (setup (lone_checkout every_program)) ≠ 0 →
     (test_holds IsFile package_json (lone_checkout every_program) = false
      ∧ exit_status (setup (lone_checkout every_program)) = 1)
     ∨ ∃ c, (c = install (lone_checkout every_program)
             ∨ c = chmod_generate ∨ c = chmod_convert)
            ∧ last (events (setup (lone_checkout every_program)))
              = Some (stmt c (exit_status (setup (lone_checkout every_program)))))
  ∧ (test_holds IsFile package_json (lone_checkout every_program) = true →
     ∃ n post,
       events (setup (lone_checkout every_program)) =
         opening
           ++ [cond (TestNot IsFile package_json) 1;
               cond (TestNot IsDir trace_repo) 0;
               stmt (Echo msg_warning) 0; stmt (Echo msg_warning_2) 0;
               stmt (Echo "") 0;
               stmt (Echo msg_installing) 0;
               cond (CommandV "yarn")
                 (if decide ("yarn" ∈ PATH (lone_checkout every_program))
                  then 0 else 1);
               stmt (install (lone_checkout every_program)) n]
           ++ post).
Proof.
  split; [reflexivity|]. split; [exact lone_checkout_same_but_trace_repo|].
  apply (setup_missing_trace_repo_only_warns
           (lone_checkout every_program) (checkout every_program));
    [reflexivity | exact lone_checkout_same_but_trace_repo].
Defined.

(** *** [set -e] *)

Lemma stops_at_failure_nil s : stops_at_failure [] s.
Proof. intros [|??] ?? E; discriminate E. Qed.

Lemma stops_at_failure_last c n : stops_at_failure [stmt c n] n.
Proof.
  intros [|? [|??]] e' post E; try discriminate E.
  injection E as <- <-. auto.
Qed.

Lemma stops_at_failure_cons e t s :
  ev_condition e = true ∨ ev_status e = 0 →
  stops_at_failure t s → stops_at_failure (e :: t) s.
Proof.
  intros He Ht [|e0 pre] e' post E Hc Hs.
  - injection E as -> ->. destruct He; congruence.
  - injection E as -> E. exact (Ht pre e' post E Hc Hs).
Qed.

Ltac solve_stops_at_failure :=
  cbn [app];
  repeat (apply stops_at_failure_cons; [solve [cbn; auto] |]);
  first [apply stops_at_failure_nil | apply stops_at_failure_last].

(** C6, as the code has it. Execution is sequential, and a command in
    statement position (not the condition of an [if]) that gives a
    non-zero status is the last command of the run, whose exit status is
    that status. *)
Theorem setup_errexit (w : World) (pre post : list event) (e : event) :
  events (setup w) = pre ++ e :: post →
  ev_condition e = false →
  ev_status e ≠ 0 →
  post = [] ∧ exit_status (setup w) = ev_status e.
Proof.
  revert pre e post. change (stops_at_failure (events (setup w)) (exit_status (setup w))).
  rewrite setup_unfold.
  destruct (test_holds IsFile package_json w).
  2: { cbn [events exit_status]. unfold opening. solve_stops_at_failure. }
  destruct (run_command (install w) w) as [n w0].
  destruct (Z.eqb_spec n 0) as [-> | Hn].
  2: { cbn [events exit_status]. setup_cases w; solve_stops_at_failure. }
  destruct (run_command chmod_generate w) as [n1 w1]. cbn zeta.
  destruct (Z.eqb_spec n1 0) as [-> | Hn1].
  2: { cbn [events exit_status]. setup_cases w; solve_stops_at_failure. }
  destruct (run_command chmod_convert w1) as [n2 w2].
  destruct (Z.eqb_spec n2 0) as [-> | Hn2];
    cbn [events exit_status]; setup_cases w; solve_stops_at_failure.
Qed.

Lemma setup_errexit_witness :
  events (setup (checkout {[ "chmod" ]})) =
    (opening ++ [cond (TestNot IsFile package_json) 1;
                 cond (TestNot IsDir trace_repo) 1;
                 stmt (Echo msg_installing) 0; cond (CommandV "yarn") 1])
      ++ stmt (External "npm" ["install"]) 127 :: []
  ∧ ev_condition (stmt (External "npm" ["install"]) 127) = false
  ∧ ev_status (stmt (External "npm" ["install"]) 127) ≠ 0
  ∧ (@nil event = []
     ∧ exit_status (setup (checkout {[ "chmod" ]}))
       = ev_status (stmt (External "npm" ["install"]) 127)).
Proof.
  split; [reflexivity|]. split; [reflexivity|]. split; [discriminate|].
  apply (setup_errexit (checkout {[ "chmod" ]})
           (opening ++ [cond (TestNot IsFile package_json) 1;
                        cond (TestNot IsDir trace_repo) 1;
                        stmt (Echo msg_installing) 0; cond (CommandV "yarn") 1])
           [] (stmt (External "npm" ["install"]) 127));
    [reflexivity | reflexivity | discriminate].
Defined.

(** C6, as the claim has it, fails. In a checkout where everything
    succeeds, the first command with a non-zero status is the test
    [[ ! -f "package.json" ]], with status 1 because the file is there; the
    script goes on after it and ends with status 0. *)
Lemma setup_errexit_counterexample :
  ¬ stops_at_first_nonzero (events (setup (checkout every_program)))
                           (exit_status (setup (checkout every_program))).
Proof.
  intros H.
  destruct (H opening (cond (TestNot IsFile package_json) 1)
              (drop 4 (events (setup (checkout every_program)))))
    as [Hpost _].
  - reflexivity.
  - repeat constructor.
  - discriminate.
  - vm_compute in Hpost. discriminate Hpost.
Qed.

End SetupScript.

(* ===================================================================== *)
(** * Part IX: properties of the layout options and the home page          *)
(* ===================================================================== *)

Section Markup.
Import Jsx.

Lemma node_nested_ind (P : node → Prop) :
  (∀ s, P (Text s)) →
  (∀ tag attrs children, Forall P children → P (Element tag attrs children)) →
  (∀ name attrs children, Forall P children → P (Component name attrs children)) →
  (∀ children, Forall P children → P (Fragment children)) →
  ∀ n, P n.
Proof.
  intros HT HE HC HF. fix IH 1.
  intros [s | tag attrs ch | name attrs ch | ch];
    [apply HT | apply HE | apply HC | apply HF];
    induction ch; constructor; auto.
Qed.

Lemma string_app_assoc (a b c : string) : (a +:+ b) +:+ c = a +:+ b +:+ c.
Proof.
  induction a as [|x a IH]; [reflexivity|].
  change (String x ((a +:+ b) +:+ c) = String x (a +:+ b +:+ c)).
  by rewrite IH.
Qed.

Lemma occurs_in_refl s : occurs_in s s.
Proof.
  exists "", "". induction s as [|x s IH]; [reflexivity|].
  change (String x s = String x (s +:+ "")). f_equal. exact IH.
Qed.

Lemma occurs_in_app_l s a b : occurs_in s a → occurs_in s (a +:+ b).
Proof.
  intros (x & y & ->). exists x, (y +:+ b). by rewrite !string_app_assoc.
Qed.

Lemma occurs_in_app_r s a b : occurs_in s b → occurs_in s (a +:+ b).
Proof.
  intros (x & y & ->). exists (a +:+ x), y. by rewrite !string_app_assoc.
Qed.

Lemma occurs_in_render_element s tag attrs inner :
  occurs_in s inner → occurs_in s (render_element tag attrs inner).
Proof.
  intros H. unfold render_element.
  do 4 apply occurs_in_app_r. by apply occurs_in_app_l.
Qed.

Lemma render_element_eq lib tag attrs children :
  render lib (Element tag attrs children) =
    inner ← render_all lib children; Some (render_element tag attrs inner).
Proof. reflexivity. Qed.

Lemma render_component_eq lib name attrs children :
  render lib (Component name attrs children) =
    inner ← render_all lib children; lib name attrs inner.
Proof. reflexivity. Qed.

Lemma render_fragment_eq lib children :
  render lib (Fragment children) = render_all lib children.
Proof. reflexivity. Qed.

Lemma has_text_element s tag attrs children :
  has_text s (Element tag attrs children) = existsb (has_text s) children.
Proof. cbn. induction children as [|n ns IH]; [reflexivity|]. cbn. by rewrite IH. Qed.

Lemma has_text_component s name attrs children :
  has_text s (Component name attrs children) = existsb (has_text s) children.
Proof. cbn. induction children as [|n ns IH]; [reflexivity|]. cbn. by rewrite IH. Qed.

Lemma has_text_fragment s children :
  has_text s (Fragment children) = existsb (has_text s) children.
Proof. cbn. induction children as [|n ns IH]; [reflexivity|]. cbn. by rewrite IH. Qed.

Lemma sample_library_wraps_children : wraps_children sample_library.
Proof.
  intros name attrs inner. unfold sample_library, render_element.
  set (tag := if bool_decide (name = "Link") then "a" else "svg").
  exists ("<" +:+ tag +:+ render_attrs attrs +:+ ">"), ("</" +:+ tag +:+ ">").
  by rewrite !string_app_assoc.
Defined.

End Markup.

Section Calls.
Import Jsx Js Layout Home Site.

Lemma baseOptions_eq (σ : gmap ref BaseLayoutProps) :
  baseOptions σ = (Returned (fresh (dom σ)), <[fresh (dom σ) := base_options]> σ).
Proof. reflexivity. Qed.

Lemma fresh_ref_unused (σ : gmap ref BaseLayoutProps) : σ !! fresh (dom σ) = None.
Proof. apply not_elem_of_dom, is_fresh. Qed.

(** [baseOptions()] leaves every object of the store as it was. *)
Lemma baseOptions_keeps (σ : gmap ref BaseLayoutProps) r o :
  σ !! r = Some o → (baseOptions σ).2 !! r = Some o.
Proof.
  intros Hr. rewrite baseOptions_eq. cbn.
  rewrite lookup_insert_ne; [exact Hr|].
  intros <-. rewrite fresh_ref_unused in Hr. discriminate.
Qed.

(** So does every operation of the repository. *)
Lemma perform_keeps op st r o :
  objects st !! r = Some o → objects (perform op st) !! r = Some o.
Proof.
  intros Hr. destruct op; cbn; [exact Hr | | exact Hr].
  by apply baseOptions_keeps.
Qed.

Lemma perform_all_keeps ops st r o :
  objects st !! r = Some o → objects (perform_all ops st) !! r = Some o.
Proof.
  revert st. induction ops as [|op ops IH]; intros st Hr; [exact Hr|].
  cbn. apply IH, perform_keeps, Hr.
Qed.

(** C3. In every state, the configuration [baseOptions()] returns has
    exactly three links, with the texts Documentation, GitHub and Paper in
    that order, each with a non-empty text and a non-empty url. *)
Theorem baseOptions_links (σ : gmap ref BaseLayoutProps) :
  ∃ o, returned_object baseOptions σ = Some o
       ∧ List.length (links o) = 3%nat
       ∧ text <$> links o = ["Documentation"; "GitHub"; "Paper"]
       ∧ Forall (λ l, text l ≠ "" ∧ url l ≠ "") (links o).
Proof.
  exists base_options. unfold returned_object. rewrite baseOptions_eq.
  rewrite lookup_insert_eq. repeat split.
  repeat constructor; discriminate.
Qed.

(** C7. [baseOptions] is a constructor of a static record. In every state
    the call returns a reference to a new object whose value is the same
    record [base_options], and changes no object that was there before; a
    second call returns another object with that same value. And whatever
    operations of the repository follow, in any number and order, the
    object the call returned still has that value. *)
Theorem baseOptions_pure (st : State) (ops : list operation) :
  ∃ r σ',
    baseOptions (objects st) = (Returned r, σ')
    ∧ objects st !! r = None
    ∧ σ' !! r = Some base_options
    ∧ (∀ r' o, objects st !! r' = Some o → σ' !! r' = Some o)
    ∧ (∃ r2 σ2, baseOptions σ' = (Returned r2, σ2) ∧ r2 ≠ r
                ∧ σ2 !! r2 = Some base_options ∧ σ2 !! r = Some base_options)
    ∧ objects (perform_all ops {| machine := machine st; objects := σ' |}) !! r
      = Some base_options.
Proof.
  set (r := fresh (dom (objects st))).
  set (σ' := <[r := base_options]> (objects st)).
  assert (σ' !! r = Some base_options) as Hr by apply lookup_insert_eq.
  exists r, σ'.
  split; [apply baseOptions_eq|].
  split; [apply fresh_ref_unused|].
  split; [exact Hr|].
  split; [intros r' o Hr'; exact (baseOptions_keeps (objects st) r' o Hr')|].
  split.
  - exists (fresh (dom σ')), (<[fresh (dom σ') := base_options]> σ').
    split; [apply baseOptions_eq|]. split.
    + intros E. pose proof (fresh_ref_unused σ') as Hf.
      rewrite E, Hr in Hf. discriminate.
    + split; [apply lookup_insert_eq|].
      exact (baseOptions_keeps σ' r base_options Hr).
  - apply perform_all_keeps. exact Hr.
Qed.

End Calls.

(* ===================================================================== *)
(** * Part X: what a run of the setup script needs, prints and changes     *)
(* ===================================================================== *)

Section SetupRuns.
Import Shell Setup SetupEffects.

(** *** One [chmod] *)

(** [chmod +x path] either succeeds, and then marks the path executable,
    or fails, with status 1 or with 127 if [chmod] is not found, and
    leaves the machine as it was. *)
Lemma run_chmod_cases path w :
  (∃ i, "chmod" ∈ PATH w ∧ fs w !! path = Some i ∧ may_chmod i = true
        ∧ run_command (External "chmod" ["+x"; path]) w =
            (0, {| fs := <[path := marked i]> (fs w); PATH := PATH w;
                   program_status := program_status w |}))
  ∨ (bool_decide ("chmod" ∈ PATH w) && chmod_allowed path w = false
     ∧ run_command (External "chmod" ["+x"; path]) w =
         (if bool_decide ("chmod" ∈ PATH w) then 1 else 127, w)).
Proof.
  cbn [run_command]. unfold chmod_allowed.
  destruct (decide ("chmod" ∈ PATH w)) as [Hf | Hf].
  - rewrite bool_decide_eq_true_2 by exact Hf. cbn [run_program]. unfold chmod_x.
    destruct (fs w !! path) as [i|] eqn:Hi; [destruct (may_chmod i) eqn:Hm|].
    + left. exists i. repeat split; auto. unfold marked. by rewrite Hm.
    + right. by split.
    + right. by split.
  - rewrite bool_decide_eq_false_2 by exact Hf. right. by split.
Qed.

Lemma run_chmod_status path w :
  (run_command (External "chmod" ["+x"; path]) w).1 = 0
  ↔ bool_decide ("chmod" ∈ PATH w) && chmod_allowed path w = true.
Proof.
  destruct (run_chmod_cases path w)
    as [(i & Hf & Hi & Hm & ->) | (Hno & ->)]; cbn [fst].
  - unfold chmod_allowed. rewrite Hi, Hm, bool_decide_eq_true_2 by exact Hf. done.
  - rewrite Hno. split; [|discriminate]. by destruct (bool_decide _).
Qed.

Lemma run_chmod_only_marks path w :
  only_marked_executable [path] w
    (run_command (External "chmod" ["+x"; path]) w).2.
Proof.
  destruct (run_chmod_cases path w)
    as [(i & _ & Hi & _ & ->) | (_ & ->)]; cbn [snd].
  - repeat split. cbn [fs]. intros p. destruct (decide (p = path)) as [-> | Hp].
    + rewrite Hi, lookup_insert_eq. right. split; [set_solver | done].
    + rewrite lookup_insert_ne by done. destruct (fs w !! p); auto.
  - repeat split. intros p. destruct (fs w !! p); auto.
Qed.

(** *** Machines on which some paths have become executable *)

Lemma only_marked_refl paths w : only_marked_executable paths w w.
Proof. repeat split. intros p. destruct (fs w !! p); auto. Qed.

Lemma marked_marked i : marked (marked i) = marked i.
Proof. reflexivity. Qed.

Lemma only_marked_trans ps qs w1 w2 w3 :
  only_marked_executable ps w1 w2 → only_marked_executable qs w2 w3 →
  only_marked_executable (ps ++ qs) w1 w3.
Proof.
  intros (HP & Hs & H12) (HP' & Hs' & H23). repeat split; [congruence..|].
  intros p. specialize (H12 p). specialize (H23 p).
  destruct (fs w1 !! p) as [i|], (fs w2 !! p) as [j|], (fs w3 !! p) as [k|];
    try done.
  destruct H12 as [-> | [Hp ->]], H23 as [-> | [Hq ->]]; auto;
    right; (split; [apply elem_of_app; auto | done]).
Qed.

Lemma only_marked_chmod_allowed paths w w' p :
  only_marked_executable paths w w' → chmod_allowed p w' = chmod_allowed p w.
Proof.
  intros (_ & _ & H). specialize (H p). unfold chmod_allowed.
  destruct (fs w !! p) as [i|], (fs w' !! p) as [j|]; try done.
  by destruct H as [-> | [_ ->]].
Qed.

(** *** The statuses a run depends on *)

Lemma install_succeeds_status w :
  install_succeeds w = ((run_command (install w) w).1 =? 0).
Proof.
  unfold install_succeeds, install. cbn [run_command].
  destruct (decide (package_manager w ∈ PATH w)) as [Hf | Hf].
  - rewrite bool_decide_eq_true_2 by exact Hf.
    unfold package_manager in *. by case_decide.
  - by rewrite bool_decide_eq_false_2 by exact Hf.
Qed.

Lemma run_chmod_status_eqb path w :
  ((run_command (External "chmod" ["+x"; path]) w).1 =? 0)
  = bool_decide ("chmod" ∈ PATH w) && chmod_allowed path w.
Proof.
  pose proof (run_chmod_status path w) as H.
  destruct (Z.eqb_spec (run_command (External "chmod" ["+x"; path]) w).1 0)
    as [E | E], (bool_decide ("chmod" ∈ PATH w) && chmod_allowed path w);
    try done.
  - symmetry. by apply H.
  - exfalso. by apply E, H.
Qed.

Lemma ready_statuses w :
  ready w =
    test_holds IsFile package_json w
    && ((run_command (install w) w).1 =? 0)
    && ((run_command chmod_generate w).1 =? 0)
    && ((run_command chmod_convert (run_command chmod_generate w).2).1 =? 0).
Proof.
  unfold ready, chmod_generate, chmod_convert.
  rewrite install_succeeds_status, !run_chmod_status_eqb.
  pose proof (run_chmod_only_marks generate_api_docs w) as Hw1.
  rewrite (only_marked_chmod_allowed _ _ _ convert_notebooks Hw1).
  destruct Hw1 as (-> & _ & _).
  destruct (test_holds _ _ _), (_ =? 0), (bool_decide _),
    (chmod_allowed generate_api_docs w), (chmod_allowed convert_notebooks w);
    reflexivity.
Qed.

Lemma setup_exit_status w :
  exit_status (setup w) =
    if test_holds IsFile package_json w then
      let n := (run_command (install w) w).1 in
      if n =? 0 then
        let n1 := (run_command chmod_generate w).1 in
        if n1 =? 0 then
          (run_command chmod_convert (run_command chmod_generate w).2).1
        else n1
      else n
    else 1.
Proof.
  pose proof (f_equal fst (setup_outcome w)) as H. cbn [fst] in H.
  rewrite H. destruct (test_holds _ _ _); [|reflexivity]. cbn zeta.
  destruct (_ =? 0); [|reflexivity]. destruct (_ =? 0); reflexivity.
Qed.

(** X1. The script ends with status 0 exactly when [package.json] is
    there, the package manager it picks is found and installs with status
    0, [chmod] is found, and both helper scripts exist with a mode the
    user may change. *)
Theorem setup_succeeds_iff_ready (w : World) :
  exit_status (setup w) = 0 ↔ ready w = true.
Proof.
  rewrite setup_exit_status, ready_statuses.
  destruct (test_holds _ _ _); [|done]. cbn zeta.
  destruct (Z.eqb_spec (run_command (install w) w).1 0) as [E | E]; [|done].
  destruct (Z.eqb_spec (run_command chmod_generate w).1 0) as [E1 | E1]; [|done].
  cbn [andb]. split; [intros ->; reflexivity | intros H%Z.eqb_eq; exact H].
Qed.

(** The lines a run prints, read off the decision tree. *)
Lemma setup_prints w :
  echoed (setup w) =
    [msg_banner; ""]
      ++ (if test_holds IsFile package_json w then
            warning_lines w ++ [msg_installing]
              ++ (if (run_command (install w) w).1 =? 0 then
                    [msg_chmod]
                      ++ (if ((run_command chmod_generate w).1 =? 0)
                             && ((run_command chmod_convert
                                    (run_command chmod_generate w).2).1 =? 0)
                          then closing_lines else [])
                  else [])
          else [msg_error]).
Proof.
  rewrite setup_unfold.
  destruct (test_holds IsFile package_json w); [|reflexivity].
  destruct (run_command (install w) w) as [n w0]. cbn [fst].
  unfold echoed, commands, warning_lines, until_install, trace_check.
  destruct (Z.eqb_spec n 0) as [-> | Hn].
  2: { cbn [events]. destruct (test_holds IsDir trace_repo w); reflexivity. }
  destruct (run_command chmod_generate w) as [n1 w1]. cbn [fst snd].
  cbn zeta.
  destruct (Z.eqb_spec n1 0) as [-> | Hn1].
  2: { cbn [events]. destruct (test_holds IsDir trace_repo w); reflexivity. }
  destruct (run_command chmod_convert w1) as [n2 w2]. cbn [fst andb].
  destruct (Z.eqb_spec n2 0) as [-> | Hn2];
    cbn [events]; destruct (test_holds IsDir trace_repo w); reflexivity.
Qed.

(** X2. What a run prints with [echo], in full: the banner; then the
    error, if [package.json] is missing; otherwise the warning (if
    [../Trace] is not a directory), the installation line, the [chmod]
    line once the installation has succeeded, and the closing lines once
    both [chmod]s have. *)
Theorem setup_output (w : World) : echoed (setup w) = output w.
Proof.
  unfold output.
  rewrite install_succeeds_status, ready_statuses, setup_prints.
  destruct (test_holds IsFile package_json w); [|reflexivity].
  destruct (_ =? 0); [|reflexivity]. cbn [andb].
  destruct (_ =? 0), (_ =? 0); reflexivity.
Qed.

Ltac no_such_line :=
  let H := fresh in
  intros H; repeat (apply elem_of_cons in H as [H|H]; [discriminate H|]);
  by apply elem_of_nil in H.

(** X3. The completion message is printed exactly by the runs that end
    with status 0, and then the last line printed is the invitation to
    run the development server. *)
Theorem setup_complete_iff_success (w : World) :
  (msg_complete ∈ echoed (setup w) ↔ exit_status (setup w) = 0)
  ∧ (exit_status (setup w) = 0 →
     last (echoed (setup w))
     = Some "🎉 Ready to go! Run 'npm run dev' to start.").
Proof.
  rewrite setup_exit_status, setup_prints. unfold warning_lines.
  destruct (test_holds IsFile package_json w).
  2: { split; [|discriminate]. split; [no_such_line | discriminate]. }
  cbn zeta.
  destruct (Z.eqb_spec (run_command (install w) w).1 0) as [E | E].
  2: { split; [|contradiction]. split; [|contradiction].
       destruct (test_holds IsDir trace_repo w); cbn; no_such_line. }
  destruct (Z.eqb_spec (run_command chmod_generate w).1 0) as [E1 | E1].
  2: { split; [|contradiction]. split; [|contradiction].
       destruct (test_holds IsDir trace_repo w); cbn; no_such_line. }
  destruct (Z.eqb_spec
              (run_command chmod_convert (run_command chmod_generate w).2).1 0)
    as [E2 | E2].
  - split; [|intros _; destruct (test_holds IsDir trace_repo w); reflexivity].
    split; [done|]. intros _.
    destruct (test_holds IsDir trace_repo w); cbn; set_solver.
  - split; [|contradiction]. split; [|contradiction].
    destruct (test_holds IsDir trace_repo w); cbn; no_such_line.
Qed.

(** X4. The error message is printed exactly when [package.json] is
    missing, and the warning exactly when [package.json] is there and
    [../Trace] is not a directory. *)
Theorem setup_error_and_warning (w : World) :
  (msg_error ∈ echoed (setup w) ↔ test_holds IsFile package_json w = false)
  ∧ (msg_warning ∈ echoed (setup w)
     ↔ test_holds IsFile package_json w = true
       ∧ test_holds IsDir trace_repo w = false).
Proof.
  rewrite setup_prints. unfold warning_lines.
  destruct (test_holds IsFile package_json w).
  2: { cbn. split; (split; [first [done | no_such_line] | ]);
         [intros _; set_solver | intros [??]; done]. }
  destruct (_ =? 0); [destruct (_ && _)|];
    destruct (test_holds IsDir trace_repo w); cbn;
    (split; (split; [first [done | no_such_line | intros _; split; done]
                    | first [done | intros [??]; done | intros _; set_solver]])).
Qed.

(** *** What a run changes *)

Lemma setup_final w :
  final (setup w) =
    if test_holds IsFile package_json w
       && ((run_command (install w) w).1 =? 0)
    then
      if (run_command chmod_generate w).1 =? 0
      then (run_command chmod_convert (run_command chmod_generate w).2).2
      else (run_command chmod_generate w).2
    else w.
Proof.
  rewrite setup_unfold.
  destruct (test_holds IsFile package_json w); [|reflexivity].
  destruct (run_command (install w) w) as [n w0]. cbn [fst andb].
  destruct (n =? 0); [|reflexivity].
  destruct (run_command chmod_generate w) as [n1 w1]. cbn [fst snd]. cbn zeta.
  destruct (n1 =? 0); [|reflexivity].
  destruct (run_command chmod_convert w1) as [n2 w2]. cbn [snd].
  destruct (n2 =? 0); reflexivity.
Qed.

(** A run leaves the machine as it was but for the executable bits of
    the two helper scripts. *)
Lemma setup_final_only_marked w :
  only_marked_executable helper_scripts w (final (setup w)).
Proof.
  rewrite setup_final.
  pose proof (run_chmod_only_marks generate_api_docs w) as H1.
  pose proof (run_chmod_only_marks convert_notebooks
                (run_command chmod_generate w).2) as H2.
  destruct (_ && _); [|apply only_marked_refl].
  destruct (_ =? 0).
  - exact (only_marked_trans _ _ _ _ _ H1 H2).
  - exact (only_marked_trans _ _ _ _ _ H1 (only_marked_refl [_] _)).
Qed.

(** X5. On the machine as it is modelled here, where a package manager
    acts only through its exit status and each path names a file of its
    own (no hard or symbolic links), a run creates and removes no path,
    changes no kind and no ownership, finds the same programs afterwards,
    and changes at most the executable bit of the two helper scripts,
    which it can only turn on. A run that does not get to the [chmod]
    lines, for want of [package.json] or of a successful installation,
    leaves that machine exactly as it was. *)
Theorem setup_only_marks_helper_scripts (w : World) :
  only_marked_executable helper_scripts w (final (setup w))
  ∧ (test_holds IsFile package_json w && install_succeeds w = false →
     final (setup w) = w).
Proof.
  split; [apply setup_final_only_marked|].
  rewrite setup_final, install_succeeds_status. by intros ->.
Qed.

(** X6. After a run that ends with status 0, each helper script is what
    it was before with the executable bit on. *)
Theorem setup_makes_helper_scripts_executable (w : World) (p : string) :
  exit_status (setup w) = 0 →
  p = generate_api_docs ∨ p = convert_notebooks →
  ∃ i, fs w !! p = Some i ∧ fs (final (setup w)) !! p = Some (marked i).
Proof.
  rewrite setup_exit_status, setup_final.
  destruct (test_holds IsFile package_json w); [|discriminate]. cbn zeta.
  destruct (Z.eqb_spec (run_command (install w) w).1 0) as [_ | ?]; [|done].
  destruct (Z.eqb_spec (run_command chmod_generate w).1 0) as [E1 | ?]; [|done].
  cbn [andb]. intros E2 Hp. revert E1 E2. unfold chmod_generate, chmod_convert.
  destruct (run_chmod_cases generate_api_docs w)
    as [(i & _ & Hi & _ & ->) | (_ & ->)];
    [|by destruct (bool_decide _)].
  cbn [fst snd]. intros _.
  match goal with |- context [run_command _ ?v] => set (w1 := v) end.
  destruct (run_chmod_cases convert_notebooks w1)
    as [(j & _ & Hj & _ & ->) | (_ & ->)];
    [|by destruct (bool_decide _)].
  cbn [fst snd fs]. intros _. subst w1. cbn [fs] in Hj.
  rewrite lookup_insert_ne in Hj by done.
  destruct Hp as [-> | ->].
  - exists i. split; [exact Hi|].
    rewrite lookup_insert_ne by done. apply lookup_insert_eq.
  - exists j. split; [exact Hj|]. apply lookup_insert_eq.
Qed.

Lemma setup_makes_helper_scripts_executable_witness :
  exit_status (setup (checkout every_program)) = 0
  ∧ (generate_api_docs = generate_api_docs
     ∨ generate_api_docs = convert_notebooks)
  ∧ ∃ i, fs (checkout every_program) !! generate_api_docs = Some i
         ∧ fs (final (setup (checkout every_program))) !! generate_api_docs
           = Some (marked i).
Proof.
  split; [reflexivity|]. split; [by left|].
  apply (setup_makes_helper_scripts_executable (checkout every_program));
    [reflexivity | by left].
Defined.

(** *** Runs on machines that agree on all the script reads *)

Lemma only_marked_same_modulo paths w w' :
  only_marked_executable paths w w' → same_modulo_executable w w'.
Proof.
  intros (HP & Hs & H). repeat split; [done..|]. intros p. specialize (H p).
  destruct (fs w !! p) as [i|], (fs w' !! p) as [j|]; try done.
  by destruct H as [-> | [_ ->]].
Qed.

Lemma same_modulo_test_holds w w' op p :
  same_modulo_executable w w' → test_holds op p w = test_holds op p w'.
Proof.
  intros (_ & _ & H). specialize (H p). unfold test_holds.
  destruct (fs w !! p) as [i|], (fs w' !! p) as [j|]; try done.
  destruct H as [-> _]. reflexivity.
Qed.

Lemma same_modulo_install w w' :
  same_modulo_executable w w' →
  install w = install w'
  ∧ (run_command (install w) w).1 = (run_command (install w') w').1.
Proof.
  intros (HP & Hs & _). unfold install, package_manager. rewrite <- HP.
  split; [reflexivity|].
  case_decide; cbn; rewrite <- HP; case_decide; cbn; rewrite ?Hs; reflexivity.
Qed.

Lemma same_modulo_chmod_allowed w w' p :
  same_modulo_executable w w' → chmod_allowed p w = chmod_allowed p w'.
Proof.
  intros (_ & _ & H). specialize (H p). unfold chmod_allowed.
  destruct (fs w !! p) as [i|], (fs w' !! p) as [j|]; try done.
  by destruct H.
Qed.

Lemma same_modulo_chmod w w' p :
  same_modulo_executable w w' →
  (run_command (External "chmod" ["+x"; p]) w).1
    = (run_command (External "chmod" ["+x"; p]) w').1
  ∧ same_modulo_executable (run_command (External "chmod" ["+x"; p]) w).2
                           (run_command (External "chmod" ["+x"; p]) w').2.
Proof.
  intros Hsame. pose proof Hsame as (HP & Hs & Hfs).
  pose proof (same_modulo_chmod_allowed w w' p Hsame) as Hal.
  destruct (run_chmod_cases p w)
    as [(i & Hf & Hi & Hm & ->) | (Hno & ->)];
    destruct (run_chmod_cases p w')
      as [(i' & Hf' & Hi' & Hm' & ->) | (Hno' & ->)];
    cbn [fst snd].
  - split; [reflexivity|]. repeat split; [done..|]. cbn [fs]. intros q.
    destruct (decide (q = p)) as [-> | Hq].
    + rewrite !lookup_insert_eq. specialize (Hfs p). by rewrite Hi, Hi' in Hfs.
    + rewrite !lookup_insert_ne by done. apply Hfs.
  - exfalso. rewrite <- HP, <- Hal in Hno'. unfold chmod_allowed in Hno'.
    rewrite Hi, Hm, bool_decide_eq_true_2 in Hno' by done. discriminate.
  - exfalso. rewrite HP, Hal in Hno. unfold chmod_allowed in Hno.
    rewrite Hi', Hm', bool_decide_eq_true_2 in Hno by done. discriminate.
  - rewrite HP. by split.
Qed.

Lemma setup_events w :
  events (setup w) =
    if test_holds IsFile package_json w then
      let n := (run_command (install w) w).1 in
      if n =? 0 then
        let n1 := (run_command chmod_generate w).1 in
        let n2 := (run_command chmod_convert (run_command chmod_generate w).2).1 in
        let t1 := until_install w 0
                    ++ [stmt (Echo msg_chmod) 0; stmt chmod_generate n1] in
        if n1 =? 0 then
          if n2 =? 0 then t1 ++ [stmt chmod_convert 0] ++ closing
          else t1 ++ [stmt chmod_convert n2]
        else t1
      else until_install w n
    else opening ++ [cond (TestNot IsFile package_json) 0;
                     stmt (Echo msg_error) 0; stmt (Exit 1) 1].
Proof.
  rewrite setup_unfold.
  destruct (test_holds IsFile package_json w); [|reflexivity].
  destruct (run_command (install w) w) as [n w0]. cbn [fst]. cbn zeta.
  destruct (n =? 0); [|reflexivity].
  destruct (run_command chmod_generate w) as [n1 w1]. cbn [fst snd].
  destruct (n1 =? 0); [|reflexivity].
  destruct (run_command chmod_convert w1) as [n2 w2]. cbn [fst].
  destruct (n2 =? 0); reflexivity.
Qed.

Lemma same_modulo_until_install w w' n :
  same_modulo_executable w w' → until_install w n = until_install w' n.
Proof.
  intros Hsame. unfold until_install, trace_check.
  rewrite (same_modulo_test_holds w w' IsDir trace_repo Hsame).
  destruct (same_modulo_install w w' Hsame) as [-> _].
  destruct Hsame as (-> & _ & _). reflexivity.
Qed.

(** On two machines that agree on all the script reads, it runs the same
    commands with the same statuses. *)
Lemma setup_run_same w w' :
  same_modulo_executable w w' →
  exit_status (setup w) = exit_status (setup w')
  ∧ events (setup w) = events (setup w').
Proof.
  intros Hsame.
  rewrite !setup_exit_status, !setup_events.
  rewrite <- (same_modulo_test_holds w w' IsFile package_json Hsame).
  destruct (test_holds IsFile package_json w); [|by split].
  destruct (same_modulo_install w w' Hsame) as [_ <-]. cbn zeta.
  rewrite <- !(same_modulo_until_install w w' _ Hsame).
  destruct (_ =? 0); [|by split].
  unfold chmod_generate, chmod_convert.
  destruct (same_modulo_chmod w w' generate_api_docs Hsame) as [<- Hsame1].
  destruct (_ =? 0); [|by split].
  destruct (same_modulo_chmod _ _ convert_notebooks Hsame1) as [<- _].
  destruct (_ =? 0); by split.
Qed.

Lemma same_but_helper_bits_modulo w w' :
  same_but_helper_bits w w' → same_modulo_executable w w'.
Proof.
  intros (HP & Hs & H). repeat split; [done..|]. intros p. specialize (H p).
  destruct (fs w !! p) as [i|], (fs w' !! p) as [j|]; try done.
  by destruct H as (? & ? & _).
Qed.

Lemma only_marked_helper_bits w w' :
  only_marked_executable helper_scripts w w' → same_but_helper_bits w w'.
Proof.
  intros (HP & Hs & H). repeat split; [done..|]. intros p. specialize (H p).
  destruct (fs w !! p) as [i|], (fs w' !! p) as [j|]; try done.
  destruct H as [-> | [Hp ->]]; repeat split; try done.
Qed.

Lemma helper_bits_chmod w w' p :
  p ∈ helper_scripts → same_but_helper_bits w w' →
  same_but_helper_bits (run_command (External "chmod" ["+x"; p]) w).2
                       (run_command (External "chmod" ["+x"; p]) w').2.
Proof.
  intros Hp Hsame. pose proof Hsame as (HP & Hs & Hfs).
  destruct (same_modulo_chmod w w' p (same_but_helper_bits_modulo _ _ Hsame))
    as [Hstatus _]. revert Hstatus.
  destruct (run_chmod_cases p w)
    as [(i & Hf & Hi & Hm & ->) | (Hno & ->)];
    destruct (run_chmod_cases p w')
      as [(i' & Hf' & Hi' & Hm' & ->) | (Hno' & ->)];
    cbn [fst snd]; intros Hstatus.
  - repeat split; [done..|]. cbn [fs]. intros q.
    destruct (decide (q = p)) as [-> | Hq].
    + rewrite !lookup_insert_eq. specialize (Hfs p).
      rewrite Hi, Hi' in Hfs. destruct Hfs as (? & ? & _). by repeat split.
    + rewrite !lookup_insert_ne by done. apply Hfs.
  - by destruct (bool_decide _).
  - by destruct (bool_decide _).
  - exact Hsame.
Qed.

(** X7. The script never looks at whether its helper scripts are
    executable already. On two machines that differ at most in the
    executable bits of [scripts/generate_api_docs.py] and
    [scripts/convert_notebooks.py] (the same paths, kinds and ownership,
    every other executable bit the same, the same programs found, with
    the same statuses), it runs the same commands with the same statuses,
    prints the same lines and ends with the same status, and the two
    machines again differ at most in those two bits afterwards. *)
Theorem setup_ignores_helper_script_bits (w w' : World) :
  same_but_helper_bits w w' →
  exit_status (setup w) = exit_status (setup w')
  ∧ events (setup w) = events (setup w')
  ∧ echoed (setup w) = echoed (setup w')
  ∧ same_but_helper_bits (final (setup w)) (final (setup w')).
Proof.
  intros Hsame.
  pose proof (same_but_helper_bits_modulo w w' Hsame) as Hmod.
  destruct (setup_run_same w w' Hmod) as [Hexit Hevents].
  split; [exact Hexit|]. split; [exact Hevents|].
  split; [unfold echoed, commands; by rewrite Hevents|].
  rewrite !setup_final.
  rewrite <- (same_modulo_test_holds w w' IsFile package_json Hmod).
  destruct (same_modulo_install w w' Hmod) as [_ <-].
  destruct (_ && _); [|exact Hsame].
  unfold chmod_generate, chmod_convert.
  destruct (same_modulo_chmod w w' generate_api_docs Hmod) as [<- _].
  assert (same_but_helper_bits
            (run_command (External "chmod" ["+x"; generate_api_docs]) w).2
            (run_command (External "chmod" ["+x"; generate_api_docs]) w').2)
    as Hsame1 by (apply helper_bits_chmod; [set_solver | exact Hsame]).
  destruct (_ =? 0); [|exact Hsame1].
  apply helper_bits_chmod; [set_solver | exact Hsame1].
Qed.

Lemma setup_ignores_helper_script_bits_witness :
  same_but_helper_bits (checkout every_program)
                       (final (setup (checkout every_program)))
  ∧ exit_status (setup (checkout every_program))
    = exit_status (setup (final (setup (checkout every_program))))
  ∧ events (setup (checkout every_program))
    = events (setup (final (setup (checkout every_program))))
  ∧ echoed (setup (checkout every_program))
    = echoed (setup (final (setup (checkout every_program))))
  ∧ same_but_helper_bits
      (final (setup (checkout every_program)))
      (final (setup (final (setup (checkout every_program))))).
Proof.
  split; [apply only_marked_helper_bits, setup_final_only_marked|].
  apply (setup_ignores_helper_script_bits (checkout every_program)).
  apply only_marked_helper_bits, setup_final_only_marked.
Defined.

(** *** Running the script again *)

Lemma Run_eq (r r' : Run) :
  exit_status r = exit_status r' → events r = events r' → final r = final r' →
  r = r'.
Proof. destruct r, r'. cbn. by intros -> -> ->. Qed.

(** [chmod +x] of a path that is already executable succeeds and changes
    nothing. *)
Lemma run_chmod_marked path w i :
  "chmod" ∈ PATH w → fs w !! path = Some (marked i) → may_chmod i = true →
  run_command (External "chmod" ["+x"; path]) w = (0, w).
Proof.
  intros Hf Hi Hm.
  destruct (run_chmod_cases path w)
    as [(i' & _ & Hi' & _ & ->) | (Hno & _)].
  - rewrite Hi in Hi'. injection Hi' as <-. rewrite marked_marked.
    destruct w as [m P st]. cbn in *. by rewrite insert_id.
  - unfold chmod_allowed in Hno.
    rewrite Hi, bool_decide_eq_true_2 in Hno by done. cbn in Hno. congruence.
Qed.

Lemma final_same_modulo w : same_modulo_executable (final (setup w)) w.
Proof.
  assert (∀ ps w', only_marked_executable ps w w' →
                   same_modulo_executable w' w) as Hback.
  { intros ps w' H. apply only_marked_same_modulo in H as (HP & Hs & H).
    repeat split; [done..|]. intros p. specialize (H p).
    destruct (fs w !! p), (fs w' !! p); try done. by destruct H. }
  rewrite setup_final.
  pose proof (run_chmod_only_marks generate_api_docs w) as H1.
  pose proof (run_chmod_only_marks convert_notebooks
                (run_command chmod_generate w).2) as H2.
  destruct (_ && _); [|exact (Hback [] w (only_marked_refl _ _))].
  destruct (_ =? 0).
  - exact (Hback _ _ (only_marked_trans _ _ _ _ _ H1 H2)).
  - exact (Hback _ _ H1).
Qed.

(** X8. Running the script again on the machine a run has left gives the
    same run: the same commands with the same statuses, the same exit
    status, and the machine is left exactly as the first run left it. *)
Theorem setup_idempotent (w : World) : setup (final (setup w)) = setup w.
Proof.
  destruct (setup_run_same _ _ (final_same_modulo w)) as [Hexit Hevents].
  apply Run_eq; [exact Hexit | exact Hevents |]. clear Hexit Hevents.
  rewrite (setup_final w).
  destruct (_ && _) eqn:Hgo; [|by rewrite setup_final, Hgo].
  unfold chmod_generate, chmod_convert.
  destruct (run_chmod_cases generate_api_docs w)
    as [(i & Hf & Hi & Hm & E1) | (Hno1 & E1)]; rewrite E1; cbn [fst snd].
  2: { destruct (bool_decide _); cbn [Z.eqb];
         rewrite setup_final, Hgo; unfold chmod_generate; by rewrite E1. }
  cbn [Z.eqb].
  set (w1 := {| fs := <[generate_api_docs := marked i]> (fs w);
                PATH := PATH w; program_status := program_status w |}) in *.
  assert (run_command chmod_generate w1 = (0, w1)) as E1'.
  { apply (run_chmod_marked _ _ i); [exact Hf | apply lookup_insert_eq | exact Hm]. }
  destruct (run_chmod_cases convert_notebooks w1)
    as [(j & Hf' & Hj & Hm' & E2) | (Hno2 & E2)]; rewrite E2; cbn [snd].
  - set (w2 := {| fs := <[convert_notebooks := marked j]> (fs w1);
                  PATH := PATH w1; program_status := program_status w1 |}).
    assert (run_command chmod_generate w2 = (0, w2)) as E1''.
    { apply (run_chmod_marked _ _ i); [exact Hf | | exact Hm].
      cbn [w2 fs]. rewrite lookup_insert_ne by done. apply lookup_insert_eq. }
    assert (run_command chmod_convert w2 = (0, w2)) as E2''.
    { apply (run_chmod_marked _ _ j); [exact Hf' | apply lookup_insert_eq | exact Hm']. }
    rewrite setup_final.
    destruct (test_holds IsFile package_json w2 && _); [|reflexivity].
    rewrite E1''. cbn [fst snd Z.eqb]. by rewrite E2''.
  - rewrite setup_final.
    destruct (test_holds IsFile package_json w1 && _); [|reflexivity].
    rewrite E1'. cbn [fst snd Z.eqb].
    unfold chmod_convert. by rewrite E2.
Qed.

(** *** The commands a run invokes *)

(** X9. Whatever the machine, the external commands a run invokes,
    whether or not their program is found, are an initial part of the
    plan: the installation with the package manager the script picks,
    then [chmod] on each helper script. The installation is invoked
    whenever [package.json] is there, and with no other package manager:
    never [npm] when [yarn] is found, nor [yarn] when it is not. To be
    invoked is not to be started: the package manager picked is found,
    and so started, exactly when [yarn] or [npm] is; when neither is,
    the attempt gives status 127 and leaves the machine alone. *)
Theorem setup_follows_plan (w : World) :
  started (setup w) `prefix_of` plan w
  ∧ (test_holds IsFile package_json w = true →
     (package_manager w, ["install"]) ∈ started (setup w))
  ∧ (∀ pm, (pm, ["install"]) ∈ started (setup w) → pm = package_manager w)
  ∧ (package_manager w ∈ PATH w ↔ "yarn" ∈ PATH w ∨ "npm" ∈ PATH w)
  ∧ (package_manager w ∉ PATH w → run_command (install w) w = (127, w)).
Proof.
  assert ((package_manager w ∈ PATH w ↔ "yarn" ∈ PATH w ∨ "npm" ∈ PATH w)
          ∧ (package_manager w ∉ PATH w →
             run_command (install w) w = (127, w))) as Hfound.
  { unfold install. cbn [run_command]. unfold package_manager.
    split; [case_decide; tauto|]. intros Hno. by rewrite decide_False. }
  cut (started (setup w) `prefix_of` plan w
       ∧ (test_holds IsFile package_json w = true →
          (package_manager w, ["install"]) ∈ started (setup w))
       ∧ (∀ pm, (pm, ["install"]) ∈ started (setup w) →
                pm = package_manager w)); [tauto|]. clear Hfound.
  pose proof (f_equal snd (setup_outcome w)) as H. cbn [snd] in H.
  rewrite H. clear H. unfold plan.
  destruct (test_holds IsFile package_json w).
  2: { split; [apply prefix_nil|]. split; [discriminate|].
       by intros pm ?%elem_of_nil. }
  cbn zeta.
  assert (∀ (pm : string) l,
            (pm, ["install"]) ∈
              (package_manager w, ["install"]) :: l →
            l `prefix_of` [("chmod", ["+x"; generate_api_docs]);
                           ("chmod", ["+x"; convert_notebooks])] →
            pm = package_manager w) as Honly.
  { intros pm l [E | Hin]%elem_of_cons [k Hk]; [congruence|].
    exfalso. assert ((pm, ["install"]) ∈ l ++ k) as Hin'
      by (apply elem_of_app; auto).
    rewrite <- Hk in Hin'. revert Hin'.
    intros H; repeat (apply elem_of_cons in H as [H|H]; [discriminate H|]);
      by apply elem_of_nil in H. }
  destruct (_ =? 0); [destruct (_ =? 0)|]; cbn [snd].
  - split; [reflexivity|]. split; [intros _; apply list_elem_of_here|].
    intros pm Hpm. by apply (Honly pm _ Hpm).
  - split; [by exists [("chmod", ["+x"; convert_notebooks])]|].
    split; [intros _; apply list_elem_of_here|].
    intros pm Hpm. apply (Honly pm _ Hpm).
    by exists [("chmod", ["+x"; convert_notebooks])].
  - split; [by eexists|].
    split; [intros _; apply list_elem_of_here|].
    intros pm Hpm. apply (Honly pm _ Hpm). apply prefix_nil.
Qed.

(** X10. With [package.json] there but neither [yarn] nor [npm] to be
    found, the script tries [npm install], ends with status 127 right
    after the installation line, and touches nothing. *)
Theorem setup_without_package_manager (w : World) :
  test_holds IsFile package_json w = true →
  "yarn" ∉ PATH w → "npm" ∉ PATH w →
  exit_status (setup w) = 127
  ∧ started (setup w) = [("npm", ["install"])]
  ∧ last (echoed (setup w)) = Some msg_installing
  ∧ final (setup w) = w.
Proof.
  intros Hpkg Hyarn Hnpm.
  assert (install w = External "npm" ["install"]) as Hinst
    by (unfold install, package_manager; by rewrite decide_False).
  assert (run_command (install w) w = (127, w)) as E
    by (rewrite Hinst; cbn; by rewrite decide_False).
  rewrite setup_unfold, Hpkg, E. cbn [Z.eqb exit_status final].
  unfold started, echoed, commands, until_install, trace_check.
  rewrite Hinst. cbn [events].
  rewrite decide_False by done.
  destruct (test_holds IsDir trace_repo w); by repeat split.
Qed.

Lemma setup_without_package_manager_witness :
  test_holds IsFile package_json (checkout {[ "chmod" ]}) = true
  ∧ ("yarn" ∉ PATH (checkout {[ "chmod" ]}))
  ∧ ("npm" ∉ PATH (checkout {[ "chmod" ]}))
  ∧ exit_status (setup (checkout {[ "chmod" ]})) = 127
  ∧ started (setup (checkout {[ "chmod" ]})) = [("npm", ["install"])]
  ∧ last (echoed (setup (checkout {[ "chmod" ]}))) = Some msg_installing
  ∧ final (setup (checkout {[ "chmod" ]})) = checkout {[ "chmod" ]}.
Proof.
  assert ("yarn" ∉ PATH (checkout {[ "chmod" ]})) as Hyarn
    by (cbn; set_solver).
  assert ("npm" ∉ PATH (checkout {[ "chmod" ]})) as Hnpm
    by (cbn; set_solver).
  split; [reflexivity|]. split; [exact Hyarn|]. split; [exact Hnpm|].
  apply (setup_without_package_manager (checkout {[ "chmod" ]}));
    [reflexivity | exact Hyarn | exact Hnpm].
Defined.

(** X11. The script does not undo what it has done: when the first
    [chmod] succeeds and the second is refused or finds no file, the run
    ends with status 1, without the completion message, and leaves the
    first helper script executable and the second as it was. *)
Theorem setup_no_rollback (w : World) :
  test_holds IsFile package_json w = true →
  install_succeeds w = true →
  "chmod" ∈ PATH w →
  chmod_allowed generate_api_docs w = true →
  chmod_allowed convert_notebooks w = false →
  exit_status (setup w) = 1
  ∧ (msg_complete ∉ echoed (setup w))
  ∧ (∃ i, fs w !! generate_api_docs = Some i
          ∧ fs (final (setup w)) !! generate_api_docs = Some (marked i))
  ∧ fs (final (setup w)) !! convert_notebooks = fs w !! convert_notebooks.
Proof.
  intros Hpkg Hinst Hf Hgen Hconv.
  rewrite install_succeeds_status in Hinst. apply Z.eqb_eq in Hinst.
  destruct (run_chmod_cases generate_api_docs w)
    as [(i & _ & Hi & Hm & E1) | (Hno1 & _)].
  2: { rewrite Hgen, bool_decide_eq_true_2 in Hno1 by done. discriminate. }
  set (w1 := {| fs := <[generate_api_docs := marked i]> (fs w);
                PATH := PATH w; program_status := program_status w |}) in *.
  assert (chmod_allowed convert_notebooks w1 = false) as Hconv1.
  { unfold chmod_allowed. cbn [w1 fs]. by rewrite lookup_insert_ne. }
  destruct (run_chmod_cases convert_notebooks w1)
    as [(j & _ & Hj & Hm' & _) | (_ & E2)].
  1: { unfold chmod_allowed in Hconv1. rewrite Hj in Hconv1. congruence. }
  rewrite bool_decide_eq_true_2 in E2 by done.
  rewrite setup_exit_status, setup_prints, setup_final, Hpkg, Hinst.
  unfold chmod_generate, chmod_convert. rewrite E1. cbn [fst snd Z.eqb andb].
  cbn zeta. rewrite E2. cbn [fst snd Z.eqb andb].
  split; [reflexivity|]. split.
  - unfold warning_lines. destruct (test_holds IsDir trace_repo w); cbn;
      no_such_line.
  - split; [exists i; split; [exact Hi | apply lookup_insert_eq]|].
    cbn [w1 fs]. by rewrite lookup_insert_ne.
Qed.

Lemma setup_no_rollback_witness :
  test_holds IsFile package_json half_owned_checkout = true
  ∧ install_succeeds half_owned_checkout = true
  ∧ "chmod" ∈ PATH half_owned_checkout
  ∧ chmod_allowed generate_api_docs half_owned_checkout = true
  ∧ chmod_allowed convert_notebooks half_owned_checkout = false
  ∧ exit_status (setup half_owned_checkout) = 1
  ∧ (msg_complete ∉ echoed (setup half_owned_checkout))
  ∧ (∃ i, fs half_owned_checkout !! generate_api_docs = Some i
          ∧ fs (final (setup half_owned_checkout)) !! generate_api_docs
            = Some (marked i))
  ∧ fs (final (setup half_owned_checkout)) !! convert_notebooks
    = fs half_owned_checkout !! convert_notebooks.
Proof.
  assert ("chmod" ∈ PATH half_owned_checkout) as Hf
    by (cbn; unfold every_program; set_solver).
  split; [reflexivity|]. split; [by vm_compute|]. split; [exact Hf|].
  split; [reflexivity|]. split; [reflexivity|].
  apply (setup_no_rollback half_owned_checkout);
    [reflexivity | by vm_compute | exact Hf | reflexivity | reflexivity].
Defined.

End SetupRuns.

(* ===================================================================== *)
(** * Part XI: what the pages refer to                                     *)
(* ===================================================================== *)

Section Pages.
Import Jsx Js Layout Site Page.

(** *** The components a tree uses *)

Lemma components_element tag attrs children :
  components (Element tag attrs children) = children ≫= components.
Proof.
  cbn. induction children as [|n ns IH]; [reflexivity|].
  rewrite bind_cons. by rewrite <- IH.
Qed.

Lemma components_component name attrs children :
  components (Component name attrs children)
  = name :: (children ≫= components).
Proof. rewrite <- (components_element "" []). reflexivity. Qed.

Lemma components_fragment children :
  components (Fragment children) = children ≫= components.
Proof.
  cbn. induction children as [|n ns IH]; [reflexivity|].
  rewrite bind_cons. by rewrite <- IH.
Qed.

(** Rendering asks the library for the components of the tree and for no
    other. *)
Lemma render_all_agree lib lib' ns :
  Forall (λ n, (∀ name, name ∈ components n →
                  ∀ attrs inner, lib name attrs inner = lib' name attrs inner) →
               render lib n = render lib' n) ns →
  (∀ name, name ∈ ns ≫= components →
     ∀ attrs inner, lib name attrs inner = lib' name attrs inner) →
  render_all lib ns = render_all lib' ns.
Proof.
  induction 1 as [|n ns Hn _ IH]; intros Hag; [reflexivity|]. cbn.
  assert (render lib n = render lib' n) as ->
    by (apply Hn; intros name Hin; apply Hag;
        rewrite bind_cons, elem_of_app; auto).
  assert (render_all lib ns = render_all lib' ns) as ->
    by (apply IH; intros name Hin; apply Hag;
        rewrite bind_cons, elem_of_app; auto).
  reflexivity.
Qed.

Lemma render_agree lib lib' n :
  (∀ name, name ∈ components n →
     ∀ attrs inner, lib name attrs inner = lib' name attrs inner) →
  render lib n = render lib' n.
Proof.
  induction n as [t | tag attrs ch IH | name attrs ch IH | ch IH]
    using node_nested_ind; intros Hag.
  - reflexivity.
  - rewrite !render_element_eq, (render_all_agree lib lib' ch IH); [done|].
    intros name. rewrite <- (components_element tag attrs). apply Hag.
  - rewrite !render_component_eq, (render_all_agree lib lib' ch IH).
    + destruct (render_all lib' ch) as [inner|]; [cbn|reflexivity].
      apply Hag. rewrite components_component. apply list_elem_of_here.
    + intros c Hc. apply Hag. rewrite components_component.
      by apply list_elem_of_further.
  - rewrite !render_fragment_eq. apply (render_all_agree lib lib' ch IH).
    intros name. rewrite <- components_fragment. apply Hag.
Qed.

(** A tree renders as soon as the components it uses produce markup
    around the markup of their children. *)
Lemma render_all_used lib ns :
  Forall (λ n, (∀ name, name ∈ components n → wraps lib name) →
               renders lib n) ns →
  (∀ name, name ∈ ns ≫= components → wraps lib name) →
  ∃ out, render_all lib ns = Some out
         ∧ ∀ s, existsb (has_text s) ns = true → occurs_in (escape s) out.
Proof.
  induction 1 as [|n ns Hn _ IH]; intros Hw; cbn.
  - exists "". split; [reflexivity | discriminate].
  - destruct Hn as (o & Hr & Ho).
    { intros name Hin. apply Hw. rewrite bind_cons, elem_of_app. auto. }
    destruct IH as (os & Hrs & Hos).
    { intros name Hin. apply Hw. rewrite bind_cons, elem_of_app. auto. }
    exists (o +:+ os). rewrite Hr. cbn. rewrite Hrs. cbn.
    split; [reflexivity|]. intros s [H | H]%orb_true_iff.
    + by apply occurs_in_app_l, Ho.
    + by apply occurs_in_app_r, Hos.
Qed.

Lemma render_used lib n :
  (∀ name, name ∈ components n → wraps lib name) → renders lib n.
Proof.
  induction n as [t | tag attrs ch IH | name attrs ch IH | ch IH]
    using node_nested_ind; intros Hw.
  - exists (escape t). split; [reflexivity|]. cbn.
    intros s ->%bool_decide_eq_true. apply occurs_in_refl.
  - destruct (render_all_used lib ch IH) as (inner & Hr & Hin).
    { intros name. rewrite <- (components_element tag attrs). apply Hw. }
    exists (render_element tag attrs inner).
    rewrite render_element_eq, Hr. split; [reflexivity|].
    intros s. rewrite has_text_element. intros H.
    by apply occurs_in_render_element, Hin.
  - destruct (render_all_used lib ch IH) as (inner & Hr & Hin).
    { intros c Hc. apply Hw. rewrite components_component.
      by apply list_elem_of_further. }
    assert (wraps lib name) as Hname
      by (apply Hw; rewrite components_component; apply list_elem_of_here).
    destruct (Hname attrs inner) as (before & after & Hlib).
    exists (before +:+ inner +:+ after).
    rewrite render_component_eq, Hr. split; [exact Hlib|].
    intros s. rewrite has_text_component. intros H.
    by apply occurs_in_app_r, occurs_in_app_l, Hin.
  - destruct (render_all_used lib ch IH) as (inner & Hr & Hin).
    { intros name. rewrite <- components_fragment. apply Hw. }
    exists inner. rewrite render_fragment_eq. split; [exact Hr|].
    intros s. rewrite has_text_fragment. apply Hin.
Qed.

Lemma strict_library_agrees name attrs inner :
  name ∈ imported →
  strict_library name attrs inner = sample_library name attrs inner.
Proof. intros H. unfold strict_library. by rewrite bool_decide_eq_true_2. Qed.

Lemma strict_library_wraps name : name ∈ imported → wraps strict_library name.
Proof.
  intros H attrs inner. rewrite strict_library_agrees by exact H.
  apply sample_library_wraps_children.
Qed.

(** *** app/(home)/page.tsx *)

Lemma home_page_component_set :
  list_to_set (components Home.home_page) =@{gset string} list_to_set imported.
Proof. compute_done. Qed.

Lemma home_page_components_imported name :
  name ∈ components Home.home_page → name ∈ imported.
Proof.
  intros H. apply (elem_of_list_to_set (C:=gset string)).
  rewrite <- home_page_component_set. by apply elem_of_list_to_set.
Qed.

(** X12. The page uses the eight components it imports and no other: no
    name is left undefined and no import is unused. *)
Theorem HomePage_uses_its_imports (name : string) :
  name ∈ components Home.home_page ↔ name ∈ imported.
Proof.
  rewrite <- (elem_of_list_to_set (C:=gset string) name imported).
  rewrite <- home_page_component_set. by rewrite elem_of_list_to_set.
Qed.

(** X13. The markup of the home page depends on the library through the
    eight imported components only: two libraries that agree on them give
    the same result, from any two states. *)
Theorem HomePage_depends_on_imports_only
    (lib lib' : library) (σ σ' : gmap ref BaseLayoutProps) :
  (∀ name, name ∈ imported →
     ∀ attrs inner, lib name attrs inner = lib' name attrs inner) →
  render_home lib σ = render_home lib' σ'.
Proof.
  intros Hag.
  change (render lib Home.home_page = render lib' Home.home_page).
  apply render_agree. intros name Hin. apply Hag.
  by apply home_page_components_imported.
Qed.

Lemma HomePage_depends_on_imports_only_witness :
  (∀ name, name ∈ imported →
     ∀ attrs inner,
       strict_library name attrs inner = sample_library name attrs inner)
  ∧ render_home strict_library ∅ = render_home sample_library ∅.
Proof.
  split; [intros name H attrs inner; by apply strict_library_agrees|].
  apply (HomePage_depends_on_imports_only strict_library sample_library ∅ ∅).
  intros name H attrs inner. by apply strict_library_agrees.
Defined.

(** X14. For the home page to render it is enough that the eight imported
    components produce markup around the markup of their children; the
    markup then contains the text of every text node of the page, escaped,
    among them Get Started and View on GitHub. *)
Theorem HomePage_renders_with_its_imports
    (lib : library) (σ : gmap ref BaseLayoutProps) :
  (∀ name, name ∈ imported → wraps lib name) →
  ∃ out,
    render_home lib σ = Some out
    ∧ (∀ s, has_text s Home.home_page = true → occurs_in (escape s) out)
    ∧ occurs_in "Get Started" out
    ∧ occurs_in "View on GitHub" out.
Proof.
  intros Hw.
  destruct (render_used lib Home.home_page) as (out & Hout & Htext).
  { intros name Hin. by apply Hw, home_page_components_imported. }
  exists out. split; [exact Hout|]. split; [exact Htext|]. split.
  - apply (Htext "Get Started"). vm_compute. reflexivity.
  - apply (Htext "View on GitHub"). vm_compute. reflexivity.
Qed.

Lemma HomePage_renders_with_its_imports_witness :
  (∀ name, name ∈ imported → wraps strict_library name)
  ∧ ∃ out,
      render_home strict_library ∅ = Some out
      ∧ (∀ s, has_text s Home.home_page = true → occurs_in (escape s) out)
      ∧ occurs_in "Get Started" out
      ∧ occurs_in "View on GitHub" out.
Proof.
  split; [exact strict_library_wraps|].
  apply (HomePage_renders_with_its_imports strict_library ∅).
  exact strict_library_wraps.
Defined.

(** X15. Every link of the home page has an [href]. A link inside the
    site points below the url of the nav link that is active on nested
    urls (Documentation, at /docs), so that this nav link is the active
    one on the page it leads to; a link out of the site opens in a new
    tab. *)
Theorem HomePage_links_agree_with_nav :
  Forall (λ '(h, t),
            ∃ u, h = Some u
                 ∧ if internal u
                   then ∃ l, l ∈ links base_options
                             ∧ active l = Some "nested-url"
                             ∧ String.prefix (url l) u = true
                   else t = Some "_blank")
         (link_targets Home.home_page).
Proof.
  assert (∀ u, String.prefix "/docs" u = true →
               ∃ l, l ∈ links base_options ∧ active l = Some "nested-url"
                    ∧ String.prefix (url l) u = true) as Hdocs.
  { intros u Hu. eexists. split; [apply list_elem_of_here|]. by split. }
  replace (link_targets Home.home_page)
    with [(Some "/docs", @None string);
          (Some "https://github.com/AgentOpt/Trace", Some "_blank");
          (Some "/docs/getting-started", None);
          (Some "/docs/tutorials", None)] by (vm_compute; reflexivity).
  repeat constructor; eexists; (split; [reflexivity|]);
    first [reflexivity | by apply Hdocs].
Qed.

(** *** lib/layout.shared.tsx *)

(** X16. The three nav links have pairwise different texts and urls; a
    link is marked external exactly when its url leads out of the site;
    and only a link inside the site has an active mode. *)
Theorem baseOptions_links_consistent (σ : gmap ref BaseLayoutProps) :
  ∃ o, returned_object baseOptions σ = Some o
       ∧ NoDup (text <$> links o)
       ∧ NoDup (url <$> links o)
       ∧ Forall (λ l, external l = Some true ↔ internal (url l) = false)
                (links o)
       ∧ Forall (λ l, is_Some (active l) → internal (url l) = true) (links o).
Proof.
  exists base_options. unfold returned_object.
  rewrite baseOptions_eq, lookup_insert_eq. split; [reflexivity|].
  split; [compute_done|]. split; [compute_done|].
  split; repeat constructor; cbn; try done; intros [? [=]].
Qed.

(** X17. The nav title uses no imported component, so it renders whatever
    the library is, always to the same markup; its text is Trace2, which
    the markup contains. *)
Theorem nav_title_renders (lib : library) (σ : gmap ref BaseLayoutProps) :
  ∃ o out,
    returned_object baseOptions σ = Some o
    ∧ components (title (nav o)) = []
    ∧ render lib (title (nav o)) = Some out
    ∧ render sample_library (title (nav o)) = Some out
    ∧ text_content (title (nav o)) = "Trace2"
    ∧ occurs_in "Trace2" out.
Proof.
  destruct (render_used lib nav_title) as (out & Hout & Htext).
  { intros name Hin. exfalso. revert Hin. vm_compute. by intros ?%elem_of_nil. }
  exists base_options, out. unfold returned_object.
  rewrite baseOptions_eq, lookup_insert_eq.
  split; [reflexivity|]. split; [reflexivity|].
  split; [exact Hout|]. split.
  - rewrite <- Hout. apply render_agree.
    intros name Hin. exfalso. revert Hin. vm_compute. by intros ?%elem_of_nil.
  - split; [reflexivity|]. apply (Htext "Trace2"). vm_compute. reflexivity.
Qed.

(** *** The second revision of the page *)

Lemma revised_page_component_set :
  list_to_set (components HomeRevised.home_page)
  =@{gset string} list_to_set imported.
Proof. compute_done. Qed.

(** X18. The second revision of the page too uses exactly the eight
    imported components, and renders as soon as these produce markup
    around the markup of their children, to markup that contains the text
    of each of its text nodes, among them Get Started and View on
    GitHub. *)
Theorem HomePage_revised_renders
    (lib : library) (σ : gmap ref BaseLayoutProps) :
  (∀ name, name ∈ imported → wraps lib name) →
  (∀ name, name ∈ components HomeRevised.home_page ↔ name ∈ imported)
  ∧ ∃ page out,
      HomeRevised.HomePage σ = (Returned page, σ)
      ∧ render lib page = Some out
      ∧ (∀ s, has_text s page = true → occurs_in (escape s) out)
      ∧ occurs_in "Get Started" out
      ∧ occurs_in "View on GitHub" out.
Proof.
  intros Hw.
  assert (∀ name, name ∈ components HomeRevised.home_page ↔ name ∈ imported)
    as Hused.
  { intros name.
    rewrite <- (elem_of_list_to_set (C:=gset string) name imported).
    rewrite <- revised_page_component_set. by rewrite elem_of_list_to_set. }
  split; [exact Hused|].
  destruct (render_used lib HomeRevised.home_page) as (out & Hout & Htext).
  { intros name Hin. by apply Hw, Hused. }
  exists HomeRevised.home_page, out. split; [reflexivity|].
  split; [exact Hout|]. split; [exact Htext|]. split.
  - apply (Htext "Get Started"). vm_compute. reflexivity.
  - apply (Htext "View on GitHub"). vm_compute. reflexivity.
Qed.

Lemma HomePage_revised_renders_witness :
  (∀ name, name ∈ imported → wraps strict_library name)
  ∧ (∀ name, name ∈ components HomeRevised.home_page ↔ name ∈ imported)
  ∧ ∃ page out,
      HomeRevised.HomePage ∅ = (Returned page, ∅)
      ∧ render strict_library page = Some out
      ∧ (∀ s, has_text s page = true → occurs_in (escape s) out)
      ∧ occurs_in "Get Started" out
      ∧ occurs_in "View on GitHub" out.
Proof.
  split; [exact strict_library_wraps|].
  apply (HomePage_revised_renders strict_library ∅).
  exact strict_library_wraps.
Defined.

(** X19. Each revision has one code listing, and the two listings have
    the same text: the listing of the second revision, which wraps every
    token in a [span] and writes each line feed as an expression, spells
    out the very program that the first revision holds as one template
    literal. *)
Theorem code_listing_unchanged :
  text_content <$> tagged "code" HomeRevised.home_page
  = text_content <$> tagged "code" Home.home_page
  ∧ List.length (tagged "code" Home.home_page) = 1%nat
  ∧ List.length (tagged "code" HomeRevised.home_page) = 1%nat
  ∧ tagged "span" (Fragment (tagged "code" Home.home_page)) = []
  ∧ tagged "span" (Fragment (tagged "code" HomeRevised.home_page)) ≠ [].
Proof.
  split; [vm_compute; reflexivity|].
  split; [vm_compute; reflexivity|].
  split; [vm_compute; reflexivity|].
  split; [vm_compute; reflexivity|].
  vm_compute. discriminate.
Qed.

(** X20. The links of the second revision agree with the nav: a link
    inside the site points below the url of the nav link that is active
    on nested urls, and a link out of the site opens in a new tab and
    goes to the url of a nav link marked external. The page of
    [app/(home)/page.tsx] fails the last point: its GitHub link goes to a
    url that no nav link has. *)
Theorem HomePage_revised_links_agree_with_nav :
  Forall (λ '(h, t),
            ∃ u, h = Some u
                 ∧ if internal u
                   then ∃ l, l ∈ links base_options
                             ∧ active l = Some "nested-url"
                             ∧ String.prefix (url l) u = true
                   else t = Some "_blank"
                        ∧ ∃ l, l ∈ links base_options ∧ url l = u
                               ∧ external l = Some true)
         (link_targets HomeRevised.home_page)
  ∧ ∃ u, (Some u, Some "_blank") ∈ link_targets Home.home_page
         ∧ internal u = false
         ∧ u ∉ url <$> links base_options.
Proof.
  assert (∀ u, String.prefix "/docs" u = true →
               ∃ l, l ∈ links base_options ∧ active l = Some "nested-url"
                    ∧ String.prefix (url l) u = true) as Hdocs.
  { intros u Hu. eexists. split; [apply list_elem_of_here|]. by split. }
  split.
  - replace (link_targets HomeRevised.home_page)
      with [(Some "/docs", @None string);
            (Some "https://github.com/AgentOpt/OpenTrace", Some "_blank");
            (Some "/docs/getting-started/installation", None);
            (Some "/docs/examples", None)] by (vm_compute; reflexivity).
    repeat constructor; eexists; (split; [reflexivity|]);
      try (by apply Hdocs).
    split; [reflexivity|]. eexists.
    split; [apply list_elem_of_further, list_elem_of_here|]. by split.
  - exists "https://github.com/AgentOpt/Trace".
    split; [|split; [reflexivity|]].
    + replace (link_targets Home.home_page)
        with [(Some "/docs", @None string);
              (Some "https://github.com/AgentOpt/Trace", Some "_blank");
              (Some "/docs/getting-started", None);
              (Some "/docs/tutorials", None)] by (vm_compute; reflexivity).
      apply list_elem_of_further, list_elem_of_here.
    + cbn. intros H.
      repeat (apply elem_of_cons in H as [H|H]; [discriminate H|]).
      by apply elem_of_nil in H.
Qed.

End Pages.

(* ===================================================================== *)
(** * Part XII: the home page and the components it imports                *)
(* ===================================================================== *)

Section Imports.
Import Jsx Js Layout Home Site Page Components Process.

(** *** Uses of components *)









(** *** Occurrence, computed *)




(** *** Libraries *)






(** *** Calling [HomePage] *)


Lemma evaluate_component bound g name attrs children :
  evaluate bound g (Component name attrs children) =
    match resolve bound g name with
    | (Some c, a) =>
        match evaluate_all bound g children with
        | (Some vs, b) => (Some (Component c attrs vs), a ++ b)
        | (None, b) => (None, a ++ b)
        end
    | (None, a) => (None, a)
    end.
Proof. reflexivity. Qed.




(** A component name that the module does not bind is read from the
    global object, and the element depends on what is found there. *)
Lemma evaluate_unbound bound g name attrs :
  name ∉ bound →
  evaluate bound g (Component name attrs []) =
    ((λ c, Component c attrs []) <$> g !! name, [ReadGlobal name]).
Proof.
  intros Hn. rewrite evaluate_component. unfold resolve.
  rewrite bool_decide_eq_false_2 by exact Hn.
  by destruct (g !! name).
Qed.

(** *** Rendering with components that have state *)

Lemma render_in_element {St} (lib : stateful_library St) tag attrs children s :
  render_in lib (Element tag attrs children) s =
    match render_all_in lib children s with
    | (Some inner, s') => (Some (render_element tag attrs inner), s')
    | (None, s') => (None, s')
    end.
Proof. reflexivity. Qed.

Lemma render_in_component {St} (lib : stateful_library St)
    name attrs children s :
  render_in lib (Component name attrs children) s =
    match render_all_in lib children s with
    | (Some inner, s') => lib name attrs inner s'
    | (None, s') => (None, s')
    end.
Proof. reflexivity. Qed.

Lemma render_in_fragment {St} (lib : stateful_library St) children s :
  render_in lib (Fragment children) s = render_all_in lib children s.
Proof. reflexivity. Qed.

(** With components without state, rendering is [render] and the state
    is left alone. *)
Lemma render_all_in_stateless {St} (lib : library) ns :
  Forall (λ n, ∀ s : St, render_in (stateless lib) n s = (render lib n, s)) ns →
  ∀ s : St, render_all_in (stateless lib) ns s = (render_all lib ns, s).
Proof.
  induction 1 as [|n ns Hn _ IH]; intros s; [reflexivity|]. cbn.
  rewrite Hn. destruct (render lib n) as [o|]; [|reflexivity]. cbn.
  rewrite IH. by destruct (render_all lib ns).
Qed.

Lemma render_in_stateless {St} (lib : library) n (s : St) :
  render_in (stateless lib) n s = (render lib n, s).
Proof.
  revert s.
  induction n as [t | tag attrs ch IH | name attrs ch IH | ch IH]
    using node_nested_ind; intros s.
  - reflexivity.
  - rewrite render_in_element, render_element_eq,
      (render_all_in_stateless lib ch IH).
    by destruct (render_all lib ch).
  - rewrite render_in_component, render_component_eq,
      (render_all_in_stateless lib ch IH).
    by destruct (render_all lib ch).
  - rewrite render_in_fragment, render_fragment_eq.
    apply (render_all_in_stateless lib ch IH).
Qed.










End Imports.
